(** * NeuralTicker: the data fetcher and the analysis requester of [main.py]

    A shallow embedding of [fetch_stock_data] and [analyze_with_ollama].
    The two functions talk to three libraries (pandas, yfinance/streamlit and
    ollama).  Data frames are modelled as labelled tables living in an object
    store, the remote services as oracles that see the history of the calls
    made so far, and Python's exceptions as an explicit outcome. *)

From Stdlib Require Import String Ascii List ZArith Lia Sorted.
From stdpp Require Import base option list gmap strings pretty relations.

Local Open Scope string_scope.
Local Open Scope list_scope.

(** ** Python values and exceptions *)

(** A raised exception: its class name, whether the class derives from
    [Exception] (as opposed to deriving from [BaseException] only, like
    [KeyboardInterrupt]), and the text [str(e)]. *)
Record py_exn := PyExn {
  exn_class : string;
  exn_is_Exception : bool;
  exn_str : string
}.

Definition KeyError (msg : string) : py_exn := PyExn "KeyError" true msg.
Definition TypeError (msg : string) : py_exn := PyExn "TypeError" true msg.
Definition KeyboardInterrupt : py_exn :=
  PyExn "KeyboardInterrupt" false EmptyString.

(** The result of running a piece of Python: a value or a raised exception. *)
Inductive outcome (A : Type) : Type :=
  | Returned (a : A)
  | Raised (e : py_exn).
Arguments Returned {A} a.
Arguments Raised {A} e.

(** The values a chat request and a chat response are made of. *)
#[warnings="-register-all"] Inductive pyval : Type :=
  | PyNone
  | PyBool (b : bool)
  | PyInt (z : Z)
  | PyStr (s : string)
  | PyList (l : list pyval)
  | PyDict (d : gmap string pyval).

(** [repr] of a key, as [KeyError] prints it (keys here are plain words). *)
Definition py_repr_key (k : string) : string := "'" +:+ k +:+ "'".

(** [v[k]] for a string key [k]; the texts of the errors are CPython's. *)
Definition py_getitem (v : pyval) (k : string) : outcome pyval :=
  match v with
  | PyDict d =>
      match d !! k with
      | Some x => Returned x
      | None => Raised (KeyError (py_repr_key k))
      end
  | PyStr _ => Raised (TypeError "string indices must be integers, not 'str'")
  | PyList _ =>
      Raised (TypeError "list indices must be integers or slices, not str")
  | PyNone => Raised (TypeError "'NoneType' object is not subscriptable")
  | PyBool _ => Raised (TypeError "'bool' object is not subscriptable")
  | PyInt _ => Raised (TypeError "'int' object is not subscriptable")
  end.

(** ** Text helpers *)

Definition nl : string := String (ascii_of_nat 10) EmptyString.

(** [x] occurs in [s]. *)
Definition occurs_in (x s : string) : Prop :=
  exists pre post, s = pre +:+ x +:+ post.

(** ** Data frames *)

Section Frames.
Context {idx cell : Type}.

(** A table: column labels, and rows made of an index label (the date) and
    one cell per column. *)
Record DataFrame := mkDF {
  df_columns : list string;
  df_rows : list (idx * list cell)
}.

Definition df_index (df : DataFrame) : list idx := map fst (df_rows df).

(** Every row has one cell per column. *)
Definition df_wf (df : DataFrame) : Prop :=
  Forall (fun r => length (snd r) = length (df_columns df)) (df_rows df).

(** [df.empty]: some axis has length 0. *)
Definition df_empty (df : DataFrame) : bool :=
  match df_columns df, df_rows df with
  | _ :: _, _ :: _ => false
  | _, _ => true
  end.

(** The last [n] elements, Python's [l[-n:]] for [0 < n] (and nothing for
    [n = 0], which pandas special-cases). *)
Definition lastn {A} (n : nat) (l : list A) : list A :=
  skipn (length l - n) l.

(** [df.tail(n)] *)
Definition df_tail (n : nat) (df : DataFrame) : DataFrame :=
  mkDF (df_columns df) (lastn n (df_rows df)).

(** Positions of the columns carrying [label], in column order. *)
Fixpoint positions_from (i : nat) (label : string) (cols : list string)
  : list nat :=
  match cols with
  | [] => []
  | c :: cols' =>
      if String.eqb c label
      then i :: positions_from (S i) label cols'
      else positions_from (S i) label cols'
  end.

Definition positions (label : string) (cols : list string) : list nat :=
  positions_from 0 label cols.

(** The cells of a row at the given positions. *)
Definition pick (ps : list nat) (cells : list cell) : list cell :=
  flat_map (fun p => match nth_error cells p with
                     | Some c => [c]
                     | None => []
                     end) ps.

(** [df[labels]] with a list of labels: a new frame with the requested
    columns in the requested order; a label that no column carries raises
    [KeyError] (with pandas' message, "[...] not in index"). *)
Definition df_getitem_list (df : DataFrame) (labels : list string)
  : outcome DataFrame :=
  let cols := df_columns df in
  let missing :=
    List.filter (fun l => match positions l cols with
                          | [] => true
                          | _ :: _ => false
                          end) labels in
  match missing with
  | [] =>
      let ps := flat_map (fun l => positions l cols) labels in
      let cols' :=
        flat_map (fun l => map (fun _ => l) (positions l cols)) labels in
      Returned (mkDF cols' (map (fun r => (fst r, pick ps (snd r)))
                                (df_rows df)))
  | _ :: _ =>
      Raised (KeyError ("[" +:+ String.concat ", " (map py_repr_key missing)
                            +:+ "] not in index"))
  end.

(** *** Reading a frame as a table of named fields *)

(** The value a row holds under [label], the row being read against the
    column labels of its frame. *)
Fixpoint lookup_field (label : string) (cols : list string)
    (cells : list cell) : option cell :=
  match cols, cells with
  | c :: cols', x :: cells' =>
      if String.eqb c label then Some x else lookup_field label cols' cells'
  | _, _ => None
  end.

(** The value of field [label] in row number [i] (from 0). *)
Definition df_value (df : DataFrame) (i : nat) (label : string)
  : option cell :=
  match nth_error (df_rows df) i with
  | Some r => lookup_field label (df_columns df) (snd r)
  | None => None
  end.

(** The date of row number [i]. *)
Definition df_date (df : DataFrame) (i : nat) : option idx :=
  option_map fst (nth_error (df_rows df) i).
End Frames.
Arguments DataFrame : clear implicits.

(** ** The world: object store, memoization cache and the two remote services *)

Definition loc := nat.

(** One request to the chat service: [ollama.chat(model=..., messages=...)]. *)
Record chat_call := ChatCall {
  chat_model : string;
  chat_messages : list pyval
}.

(** The object [yf.Ticker(symbol)]. *)
Record Ticker := mkTicker { ticker_symbol : string }.

Section Program.
Context {idx cell : Type}.

Local Abbreviation frame := (DataFrame idx cell).

(** The state of the process: the frames that exist, the entries of the
    [st.cache_data] cache of [fetch_stock_data] (keyed by its arguments,
    holding a serialized copy of the result), and the requests made so far
    to the market-data provider and to the chat service. *)
Record world := mkWorld {
  heap : gmap loc frame;
  cache : gmap (string * string) frame;
  yf_log : list (string * string);
  chat_log : list chat_call
}.

(** *** Libraries, taken as they are *)

(** [DataFrame.to_string()]: pandas' rendering of a frame as text. *)
Variable to_string : frame -> string.
(** [yf.Ticker(symbol)]. *)
Variable yf_Ticker : string -> outcome Ticker.
(** [Ticker.history(period=...)]: what the provider answers, given the
    requests made before. *)
Variable yf_history : list (string * string) -> Ticker -> string -> outcome frame.
(** [ollama.chat(model, messages)]: what the service answers, given the
    requests made before. *)
Variable ollama_chat : list chat_call -> chat_call -> outcome pyval.

(** *** Computations: state passing with exceptions *)

Definition M (A : Type) : Type := world -> outcome A * world.

Definition ret {A} (a : A) : M A := fun w => (Returned a, w).
Definition bind {A B} (m : M A) (k : A -> M B) : M B :=
  fun w => match m w with
           | (Returned a, w') => k a w'
           | (Raised e, w') => (Raised e, w')
           end.
Definition lift {A} (o : outcome A) : M A := fun w => (o, w).

Notation "'let*' x := c 'in' k" := (bind c (fun x => k))
  (at level 10, x name, c at level 100, k at level 200).

(** [try: body except Exception as e: handler(e)]: only exceptions whose
    class derives from [Exception] are handled. *)
Definition try_except_Exception {A} (body : M A) (handler : py_exn -> M A)
  : M A :=
  fun w => match body w with
           | (Returned a, w') => (Returned a, w')
           | (Raised e, w') =>
               if exn_is_Exception e then handler e w' else (Raised e, w')
           end.

(** A new object. *)
Definition alloc (df : frame) : M loc :=
  fun w => let l := fresh (dom (heap w)) in
           (Returned l,
            mkWorld (<[l := df]> (heap w)) (cache w) (yf_log w) (chat_log w)).

(** Reading an object through a reference.  References held by a Python
    program always point to an object; the error case only makes the
    function total. *)
Definition deref (l : loc) : M frame :=
  fun w => match heap w !! l with
           | Some df => (Returned df, w)
           | None => (Raised (PyExn "SystemError" true "dangling reference"), w)
           end.

(** *** pandas operations on frame objects: each returns a new object *)

Definition DataFrame_tail (self : loc) (n : nat) : M loc :=
  let* df := deref self in alloc (df_tail n df).

Definition DataFrame_getitem (self : loc) (labels : list string) : M loc :=
  let* df := deref self in
  let* sel := lift (df_getitem_list df labels) in
  alloc sel.

Definition DataFrame_to_string (self : loc) : M string :=
  let* df := deref self in ret (to_string df).

Definition DataFrame_empty (self : loc) : M bool :=
  let* df := deref self in ret (df_empty df).

(** *** Remote calls *)

Definition Ticker_history (stock : Ticker) (period : string) : M loc :=
  fun w =>
    let w' := mkWorld (heap w) (cache w)
                      (yf_log w ++ [(ticker_symbol stock, period)])
                      (chat_log w) in
    match yf_history (yf_log w) stock period with
    | Returned df => alloc df w'
    | Raised e => (Raised e, w')
    end.

Definition ollama_chat_call (model : string) (messages : list pyval)
  : M pyval :=
  fun w =>
    let c := ChatCall model messages in
    (ollama_chat (chat_log w) c,
     mkWorld (heap w) (cache w) (yf_log w) (chat_log w ++ [c])).

(** *** [st.cache_data]

    The decorator keeps one entry per argument tuple.  On a hit the stored
    copy is deserialized into a new object and the function is not run; on
    a miss the function runs, a copy of what it returned is stored, and the
    returned object itself is handed back.  An exception of the function
    passes through and nothing is stored. *)
Definition cache_data (f : string -> string -> M loc)
    (ticker period : string) : M loc :=
  fun w =>
    match cache w !! (ticker, period) with
    | Some df => alloc df w
    | None =>
        (let* r := f ticker period in
         let* df := deref r in
         fun w' => (Returned r,
                    mkWorld (heap w') (<[(ticker, period) := df]> (cache w'))
                            (yf_log w') (chat_log w'))) w
    end.

(** *** [fetch_stock_data] (main.py, lines 18-25) *)

Definition fetch_stock_data_body (ticker period : string) : M loc :=
  let* stock := lift (yf_Ticker ticker) in
  let* data := Ticker_history stock period in
  ret data.

Definition fetch_stock_data : string -> string -> M loc :=
  cache_data fetch_stock_data_body.

(** *** [analyze_with_ollama] (main.py, lines 31-65) *)

Definition five_fields : list string :=
  ["Open"; "High"; "Low"; "Close"; "Volume"].

(** The f-string of lines 40-55. *)
Definition build_prompt (ticker table : string) : string :=
  nl +:+ "You are a financial analyst." +:+ nl
  +:+ nl
  +:+ "Stock ticker: " +:+ ticker +:+ nl
  +:+ nl
  +:+ "Recent market data:" +:+ nl
  +:+ table +:+ nl
  +:+ nl
  +:+ "Tasks:" +:+ nl
  +:+ "1. Identify short-term trend" +:+ nl
  +:+ "2. Comment on volatility" +:+ nl
  +:+ "3. Provide a Buy / Sell / Hold recommendation" +:+ nl
  +:+ "4. Brief reasoning" +:+ nl
  +:+ nl
  +:+ "Limit response to 200 words." +:+ nl.

(** The three fixed stretches of the template: up to the ticker, between
    the ticker and the table, and after the table. *)
Definition prompt_opening : string :=
  nl +:+ "You are a financial analyst." +:+ nl +:+ nl +:+ "Stock ticker: ".
Definition prompt_data_heading : string :=
  nl +:+ nl +:+ "Recent market data:" +:+ nl.
Definition prompt_tasks : string :=
  nl +:+ nl
  +:+ "Tasks:" +:+ nl
  +:+ "1. Identify short-term trend" +:+ nl
  +:+ "2. Comment on volatility" +:+ nl
  +:+ "3. Provide a Buy / Sell / Hold recommendation" +:+ nl
  +:+ "4. Brief reasoning" +:+ nl
  +:+ nl
  +:+ "Limit response to 200 words." +:+ nl.

(** [{"role": "user", "content": prompt}] *)
Definition user_message (prompt : string) : pyval :=
  PyDict {[ "role" := PyStr "user"; "content" := PyStr prompt ]}.

Definition analyze_with_ollama (data : loc) (ticker : string) : M pyval :=
  let* is_empty := DataFrame_empty data in
  if (is_empty : bool) then ret (PyStr "No data available for analysis.")
  else
    let* last_rows := DataFrame_tail data 10 in
    let* recent_data := DataFrame_getitem last_rows five_fields in
    let* table := DataFrame_to_string recent_data in
    let prompt := build_prompt ticker table in
    try_except_Exception
      (let* response :=
         ollama_chat_call "NeuralTicker" [user_message prompt] in
       let* message := lift (py_getitem response "message") in
       lift (py_getitem message "content"))
      (fun e => ret (PyStr ("LLM Error: " +:+ exn_str e))).

(** *** Price series and the life of the process *)

(** A price series: a well-formed table whose columns are distinct and
    include open, high, low, close and volume. *)
Definition price_series (df : frame) : Prop :=
  df_wf df /\ List.NoDup (df_columns df) /\
  forall f, In f five_fields -> In f (df_columns df).

(** One thing that happens during the life of the process: a fetch, an
    analysis, or the caller changing or creating a frame it holds. *)
Inductive step : world -> world -> Prop :=
  | step_fetch ticker period w :
      step w (snd (fetch_stock_data ticker period w))
  | step_analyze data ticker w :
      step w (snd (analyze_with_ollama data ticker w))
  | step_mutate l df w :
      step w (mkWorld (<[l := df]> (heap w)) (cache w) (yf_log w)
                      (chat_log w)).

(** [w'] is [w] after a computation that changed no existing frame, left
    the cache and the provider alone, and at most sent chat requests. *)
Definition extends (w w' : world) : Prop :=
  (forall l df, heap w !! l = Some df -> heap w' !! l = Some df) /\
  cache w' = cache w /\
  yf_log w' = yf_log w /\
  exists calls, chat_log w' = chat_log w ++ calls.

Definition preserving {A} (m : M A) : Prop :=
  forall w : world, extends w (snd (m w)).

(** [w'] has every frame of [w] as it was, and the same chat log. *)
Definition extends_heap_and_chat (w w' : world) : Prop :=
  (forall l df, heap w !! l = Some df -> heap w' !! l = Some df) /\
  chat_log w' = chat_log w.

(** An outcome that does not escape [except Exception]: a value, or an
    exception whose class derives from [Exception]. *)
Definition catchable {A} (o : outcome A) : Prop :=
  match o with
  | Returned _ => True
  | Raised e => exn_is_Exception e = true
  end.
End Program.

(** ** The page: the chart and the script *)

(** The choices of the period select box (main.py, line 98). *)
Inductive period := P5d | P1mo | P3mo | P6mo | P1y.

Definition period_value (p : period) : string :=
  match p with
  | P5d => "5d" | P1mo => "1mo" | P3mo => "3mo" | P6mo => "6mo" | P1y => "1y"
  end.

Definition period_options : list string := ["5d"; "1mo"; "3mo"; "6mo"; "1y"].

Section Script.
Context {idx cell : Type}.

Local Abbreviation frame := (DataFrame idx cell).
Local Abbreviation world := (@world idx cell).
Local Abbreviation M := (@M idx cell).

(** What the script asks streamlit and matplotlib to do, in order. *)
Inductive ui_event :=
  | st_set_page_config (page_title layout : string)
  | st_title (body : string)
  | st_text_input (label placeholder : string)
  | st_selectbox (label : string) (options : list string) (index : nat)
  | st_button (label : string)
  | st_warning (body : string)
  | st_error (body : string)
  | st_subheader (body : string)
  | st_spinner_enter (text : string)
  | st_spinner_exit
  | st_write (v : pyval)
  | plt_figure (width height : Z)
  | plt_plot (x : list idx) (y : frame) (marker linestyle label : string)
  | plt_title (label : string)
  | plt_xlabel (label : string)
  | plt_ylabel (label : string)
  | plt_xticks (rotation : Z)
  | plt_grid (visible : bool)
  | plt_legend
  | st_pyplot.

(** One run of the script: the process, and what was put on the page. *)
Record session := mkSession {
  sess_world : world;
  sess_page : list ui_event
}.

Variable to_string : frame -> string.
Variable yf_Ticker : string -> outcome Ticker.
Variable yf_history :
  list (string * string) -> Ticker -> string -> outcome frame.
Variable ollama_chat : list chat_call -> chat_call -> outcome pyval.
(** [str.upper()]. *)
Variable str_upper : string -> string.

Definition UI (A : Type) : Type := session -> outcome A * session.

Definition ui_ret {A} (a : A) : UI A := fun s => (Returned a, s).
Definition ui_bind {A B} (m : UI A) (k : A -> UI B) : UI B :=
  fun s => match m s with
           | (Returned a, s') => k a s'
           | (Raised e, s') => (Raised e, s')
           end.

Notation "'let*' x := c 'in' k" := (ui_bind c (fun x => k))
  (at level 10, x name, c at level 100, k at level 200).
Notation "c ;; k" := (ui_bind c (fun _ => k))
  (at level 100, k at level 200, right associativity).

(** A computation on the process, run within the script. *)
Definition run {A} (m : M A) : UI A :=
  fun s => match m (sess_world s) with
           | (o, w') => (o, mkSession w' (sess_page s))
           end.

Definition emit (ev : ui_event) : UI unit :=
  fun s => (Returned tt, mkSession (sess_world s) (sess_page s ++ [ev])).

(** [with st.spinner(text): body]: the spinner is taken down when the body
    is left, by a return or by an exception. *)
Definition with_spinner {A} (text : string) (body : UI A) : UI A :=
  fun s =>
    match body (mkSession (sess_world s)
                          (sess_page s ++ [st_spinner_enter text])) with
    | (o, s') =>
        (o, mkSession (sess_world s') (sess_page s' ++ [st_spinner_exit]))
    end.

(** [df[label]] with one label: the column carrying it, a Series, here a
    table of one column (the columns carrying it, when several do); no
    such column raises [KeyError]. *)
Definition df_getitem_label (df : frame) (label : string) : outcome frame :=
  match positions label (df_columns df) with
  | [] => Raised (KeyError (py_repr_key label))
  | ps =>
      Returned (mkDF (map (fun _ => label) ps)
                     (map (fun r => (fst r, pick ps (snd r))) (df_rows df)))
  end.

(** [data.index] and [data[label]]: read, and handed on to the caller. *)
Definition DataFrame_index (self : loc) : M (list idx) :=
  bind (deref self) (fun df => ret (df_index df)).

Definition DataFrame_getitem_label (self : loc) (label : string) : M frame :=
  bind (deref self) (fun df => lift (df_getitem_label df label)).

(** *** [plot_stock_price] (main.py, lines 71-83) *)

Definition plot_stock_price (data : loc) (ticker : string) : UI unit :=
  emit (plt_figure 10 5) ;;
  let* x := run (DataFrame_index data) in
  let* y := run (DataFrame_getitem_label data "Close") in
  emit (plt_plot x y "o" "-" "Close Price") ;;
  emit (plt_title (ticker +:+ " – Closing Price Trend")) ;;
  emit (plt_xlabel "Date") ;;
  emit (plt_ylabel "Price (USD)") ;;
  emit (plt_xticks 45) ;;
  emit (plt_grid true) ;;
  emit plt_legend ;;
  emit st_pyplot.

(** *** The script (main.py, lines 10-13 and 89-119)

    One run, for the text in the input box, the period chosen and whether
    the button was pressed. *)

(** [not s] for a string. *)
Definition str_is_empty (s : string) : bool :=
  match s with
  | EmptyString => true
  | String _ _ => false
  end.

Definition main_script (typed : string) (chosen : period) (pressed : bool)
  : UI unit :=
  emit (st_set_page_config "NeuralTicker" "centered") ;;
  emit (st_title "📈 NeuralTicker – Local LLM Stock Analysis") ;;
  emit (st_text_input "Enter stock ticker (e.g., AAPL, MSFT, GOOG)" "AAPL") ;;
  let ticker := str_upper typed in
  emit (st_selectbox "Select time period" period_options 1) ;;
  let period := period_value chosen in
  emit (st_button "Analyze Stock") ;;
  if pressed then
    if str_is_empty ticker
    then emit (st_warning "Please enter a valid stock ticker.")
    else
      let* stock_data :=
        with_spinner "Fetching market data..."
          (run (fetch_stock_data yf_Ticker yf_history ticker period)) in
      let* is_empty := run (DataFrame_empty stock_data) in
      if (is_empty : bool)
      then emit (st_error "No data found for this ticker.")
      else
        emit (st_subheader " Price Trend") ;;
        plot_stock_price stock_data ticker ;;
        emit (st_subheader " NeuralTicker LLM Analysis") ;;
        let* analysis :=
          with_spinner "Analyzing using local LLM..."
            (run (analyze_with_ollama to_string ollama_chat
                    stock_data ticker)) in
        emit (st_write analysis)
  else ui_ret tt.

(** What every run puts on the page first. *)
Definition page_head : list ui_event :=
  [st_set_page_config "NeuralTicker" "centered";
   st_title "📈 NeuralTicker – Local LLM Stock Analysis";
   st_text_input "Enter stock ticker (e.g., AAPL, MSFT, GOOG)" "AAPL";
   st_selectbox "Select time period" period_options 1;
   st_button "Analyze Stock"].

(** The chart of a table for a ticker, as [plot_stock_price] draws it. *)
Definition chart (x : list idx) (y : frame) (ticker : string)
  : list ui_event :=
  [plt_figure 10 5;
   plt_plot x y "o" "-" "Close Price";
   plt_title (ticker +:+ " – Closing Price Trend");
   plt_xlabel "Date";
   plt_ylabel "Price (USD)";
   plt_xticks 45;
   plt_grid true;
   plt_legend;
   st_pyplot].

(** An event of matplotlib or the display of its figure. *)
Definition is_chart_event (ev : ui_event) : bool :=
  match ev with
  | plt_figure _ _ | plt_plot _ _ _ _ _ | plt_title _ | plt_xlabel _
  | plt_ylabel _ | plt_xticks _ | plt_grid _ | plt_legend | st_pyplot => true
  | _ => false
  end.
End Script.

(** ** Sample data: quotes, a provider and chat services *)

Module Sample.
(** What the provider's tables look like: the five price fields and two
    more columns; dates are written as text, amounts as integers. *)
Definition quote_columns : list string :=
  ["Open"; "High"; "Low"; "Close"; "Volume"; "Dividends"; "Stock Splits"].

Definition quote (k : nat) : string * list Z :=
  let z := Z.of_nat k in
  ("day " +:+ pretty k,
   [100 + z; 105 + z; 95 + z; 102 + z; 1000 * z; 0; 0]%Z).

Definition quotes (n : nat) : DataFrame string Z :=
  mkDF quote_columns (map quote (seq 1 n)).

(** A table without the volume column. *)
Definition no_volume : DataFrame string Z :=
  mkDF ["Open"; "High"; "Low"; "Close"] [("day 1", [101; 106; 96; 103]%Z)].

(** A plain rendering of a table as text. *)
Definition render (df : DataFrame string Z) : string :=
  String.concat nl
    (String.concat " " (df_columns df)
     :: map (fun r => fst r +:+ " " +:+ String.concat " " (map pretty (snd r)))
            (df_rows df)).

(** A process that holds one frame, at reference 0. *)
Definition holding (df : DataFrame string Z) : @world string Z :=
  mkWorld {[ 0 := df ]} ∅ [] [].

Definition fresh_process : @world string Z := mkWorld ∅ ∅ [] [].

(** Chat services. *)
Definition chat_replies (text : string)
  : list chat_call -> chat_call -> outcome pyval :=
  fun _ _ =>
    Returned (PyDict {[ "model" := PyStr "NeuralTicker";
                        "message" := PyDict {[ "role" := PyStr "assistant";
                                               "content" := PyStr text ]} ]}).

Definition chat_unreachable : list chat_call -> chat_call -> outcome pyval :=
  fun _ _ => Raised (PyExn "ConnectionError" true
                       "Failed to connect to Ollama.").

Definition chat_interrupted : list chat_call -> chat_call -> outcome pyval :=
  fun _ _ => Raised KeyboardInterrupt.

Definition chat_without_message
  : list chat_call -> chat_call -> outcome pyval :=
  fun _ _ => Returned (PyDict {[ "error" := PyStr "model not found" ]}).

(** Providers: one that answers with as many quotes as it has been asked
    questions before, plus three; one whose network is down. *)
Definition provider_Ticker (symbol : string) : outcome Ticker :=
  Returned (mkTicker symbol).

Definition provider_history (log : list (string * string)) (stock : Ticker)
    (period : string) : outcome (DataFrame string Z) :=
  Returned (quotes (3 + length log)).

Definition provider_down (log : list (string * string)) (stock : Ticker)
    (period : string) : outcome (DataFrame string Z) :=
  Raised (PyExn "ConnectionError" true "Max retries exceeded").
End Sample.

(** ** Sample data for the page *)

Module SamplePage.
(** Upper case of plain letters. *)
Definition upper_ascii (c : ascii) : ascii :=
  let n := nat_of_ascii c in
  if (97 <=? n)%nat && (n <=? 122)%nat then ascii_of_nat (n - 32) else c.

Fixpoint upper (s : string) : string :=
  match s with
  | EmptyString => EmptyString
  | String c rest => String (upper_ascii c) (upper rest)
  end.

(** A table without the close column. *)
Definition no_close : DataFrame string Z :=
  mkDF ["Open"; "High"; "Low"; "Volume"] [("day 1", [101; 106; 96; 1000]%Z)].

(** A provider that knows no ticker: every answer is an empty table. *)
Definition provider_unknown (log : list (string * string)) (stock : Ticker)
    (period : string) : outcome (DataFrame string Z) :=
  Returned (Sample.quotes 0).

(** A provider whose first answer fails and whose later answers come. *)
Definition provider_flaky (log : list (string * string)) (stock : Ticker)
    (period : string) : outcome (DataFrame string Z) :=
  match log with
  | [] => Raised (PyExn "ConnectionError" true "Max retries exceeded")
  | _ :: _ => Returned (Sample.quotes 5)
  end.

(** A chat service whose reply text reads like a failure. *)
Definition chat_replies_error : list chat_call -> chat_call -> outcome pyval :=
  Sample.chat_replies "LLM Error: Failed to connect to Ollama.".

(** A run that starts on an empty page, in a process. *)
Definition opening (w : @world string Z) : @session string Z :=
  mkSession w [].
End SamplePage.

(** ** Facts about text *)

Lemma append_assoc (a b c : string) : (a +:+ b) +:+ c = a +:+ b +:+ c.
Proof.
  induction a as [|ch a IH]; [reflexivity|].
  change (String ch ((a +:+ b) +:+ c) = String ch (a +:+ b +:+ c)).
  now rewrite IH.
Qed.

Lemma occurs_in_prefix (x post : string) : occurs_in x (x +:+ post).
Proof. exists EmptyString, post. reflexivity. Qed.

Lemma occurs_in_app_r (x pre s : string) :
  occurs_in x s -> occurs_in x (pre +:+ s).
Proof.
  intros (a & b & ->). exists (pre +:+ a), b. now rewrite append_assoc.
Qed.

(** Finds [x] among the pieces of a concatenation. *)
Ltac find_piece :=
  first [ apply occurs_in_prefix | apply occurs_in_app_r; find_piece ].

(** ** Facts about frames *)

Section FrameFacts.
Context {idx cell : Type}.
Implicit Types (df : DataFrame idx cell) (cols fields : list string)
               (cells : list cell).

Lemma length_lastn {A} (n : nat) (l : list A) :
  length (lastn n l) = Nat.min n (length l).
Proof. unfold lastn. rewrite length_skipn. lia. Qed.

Lemma lastn_all {A} (n : nat) (l : list A) :
  length l <= n -> lastn n l = l.
Proof.
  intros H. unfold lastn. replace (length l - n) with 0 by lia. reflexivity.
Qed.

Lemma lastn_map {A B} (f : A -> B) (n : nat) (l : list A) :
  lastn n (map f l) = map f (lastn n l).
Proof. unfold lastn. rewrite length_map. apply skipn_map. Qed.

Lemma lastn_Forall {A} (P : A -> Prop) (n : nat) (l : list A) :
  Forall P l -> Forall P (lastn n l).
Proof.
  intros H. apply List.Forall_forall. intros x Hx.
  rewrite List.Forall_forall in H. apply H.
  unfold lastn in Hx. rewrite <- (firstn_skipn (length l - n) l).
  apply in_or_app. now right.
Qed.

(** A suffix of a sorted list is sorted. *)
Lemma Sorted_skipn {A} (R : A -> A -> Prop) (k : nat) (l : list A) :
  Sorted R l -> Sorted R (skipn k l).
Proof.
  revert l. induction k as [|k IH]; intros l Hs; [exact Hs|].
  destruct l as [|x l]; [exact Hs|]. simpl. apply IH.
  now inversion Hs.
Qed.

Lemma positions_from_absent (i : nat) (f : string) cols :
  ~ In f cols -> positions_from i f cols = [].
Proof.
  revert i. induction cols as [|c cols IH]; intros i Hn; [reflexivity|].
  simpl. destruct (String.eqb_spec c f) as [->|Hne].
  - exfalso. apply Hn. now left.
  - apply IH. intros Hin. apply Hn. now right.
Qed.

(** In a table with distinct labels a label sits at one position, and that
    is where [lookup_field] reads. *)
Lemma positions_from_unique (i : nat) (f : string) cols :
  List.NoDup cols -> In f cols ->
  exists p, positions_from i f cols = [i + p] /\
    forall cells, length cells = length cols ->
      lookup_field f cols cells = nth_error cells p /\ p < length cells.
Proof.
  revert i. induction cols as [|c cols IH]; intros i Hnd Hin; [destruct Hin|].
  apply NoDup_cons_iff in Hnd as [Hc Hnd]. simpl.
  destruct (String.eqb_spec c f) as [->|Hne].
  - exists 0. split.
    + rewrite positions_from_absent by assumption. f_equal. lia.
    + intros [|x cells] Hlen; [discriminate|]. simpl.
      split; [reflexivity|lia].
  - destruct Hin as [Heq|Hin]; [contradiction|].
    destruct (IH (S i) Hnd Hin) as (p & Hp & Hread).
    exists (S p). split.
    + rewrite Hp. f_equal. lia.
    + intros [|x cells] Hlen; [discriminate|]. simpl.
      injection Hlen as Hlen. destruct (Hread cells Hlen). split; [assumption|lia].
Qed.

(** Selecting fields that all exist, from a table with distinct labels. *)
Lemma select_existing cols fields :
  List.NoDup cols -> (forall f, In f fields -> In f cols) ->
  List.filter (fun l => match positions l cols with
                        | [] => true
                        | _ :: _ => false
                        end) fields = [] /\
  flat_map (fun l => map (fun _ => l) (positions l cols)) fields = fields /\
  forall cells, length cells = length cols ->
    Forall2 (fun f c => lookup_field f cols cells = Some c) fields
            (pick (flat_map (fun l => positions l cols) fields) cells).
Proof.
  intros Hnd. induction fields as [|f fields IH]; intros Hin.
  - repeat split. intros cells _. constructor.
  - destruct IH as (IH1 & IH2 & IH3).
    { intros g Hg. apply Hin. now right. }
    destruct (positions_from_unique 0 f cols Hnd) as (p & Hp & Hread).
    { apply Hin. now left. }
    change (positions_from 0 f cols) with (positions f cols) in Hp.
    simpl in Hp. simpl. rewrite !Hp. simpl.
    repeat split.
    + exact IH1.
    + now rewrite IH2.
    + intros cells Hlen. destruct (Hread cells Hlen) as [Hlk Hlt].
      unfold pick. simpl.
      destruct (nth_error cells p) as [c|] eqn:Hc.
      * simpl. constructor; [exact Hlk|]. apply IH3, Hlen.
      * apply nth_error_None in Hc. lia.
Qed.

Lemma lookup_field_Forall2 (g : string -> option cell) fields cells :
  List.NoDup fields ->
  Forall2 (fun f c => g f = Some c) fields cells ->
  forall f, In f fields -> lookup_field f fields cells = g f.
Proof.
  intros Hnd HF. induction HF as [|f0 c0 fields cells H0 HF IH];
    intros f Hin; [destruct Hin|].
  apply NoDup_cons_iff in Hnd as [Hf0 Hnd]. simpl.
  destruct (String.eqb_spec f0 f) as [->|Hne]; [now rewrite H0|].
  destruct Hin as [Heq|Hin]; [contradiction|]. now apply IH.
Qed.

Lemma five_fields_NoDup : List.NoDup five_fields.
Proof.
  unfold five_fields.
  repeat (constructor; [simpl; intuition discriminate|]). constructor.
Qed.

(** [df[fields]] on a well-formed table with distinct labels that has all
    the requested fields: the result has exactly these fields, the same
    rows in the same order, and the same value in every kept field. *)
Lemma df_getitem_list_spec df fields :
  df_wf df -> List.NoDup (df_columns df) -> List.NoDup fields ->
  (forall f, In f fields -> In f (df_columns df)) ->
  exists sel,
    df_getitem_list df fields = Returned sel /\
    df_columns sel = fields /\
    df_wf sel /\
    df_index sel = df_index df /\
    forall i f, In f fields ->
      df_value sel i f = df_value df i f /\
      (i < length (df_rows df) -> is_Some (df_value sel i f)).
Proof.
  intros Hwf Hnd Hndf Hin.
  destruct (select_existing (df_columns df) fields Hnd Hin)
    as (Hmiss & Hcols & Hcells).
  unfold df_getitem_list. rewrite Hmiss, Hcols.
  eexists. split; [reflexivity|]. simpl.
  assert (Hrow : forall r, In r (df_rows df) ->
            Forall2 (fun f c => lookup_field f (df_columns df) (snd r) = Some c)
              fields
              (pick (flat_map (fun l => positions l (df_columns df)) fields)
                    (snd r))).
  { intros r Hr. apply Hcells.
    unfold df_wf in Hwf. rewrite List.Forall_forall in Hwf. now apply Hwf. }
  split; [reflexivity|]. split; [|split].
  - unfold df_wf. simpl. apply List.Forall_forall. intros r' Hr'.
    apply in_map_iff in Hr' as (r & <- & Hr). simpl.
    symmetry. eapply Forall2_length, Hrow, Hr.
  - unfold df_index. simpl. rewrite map_map. reflexivity.
  - intros i f Hf. unfold df_value. simpl. rewrite nth_error_map.
    destruct (nth_error (df_rows df) i) as [r|] eqn:Hr; simpl.
    + assert (Hr' : In r (df_rows df)) by (eapply nth_error_In; eassumption).
      pose proof (lookup_field_Forall2 _ _ _ Hndf (Hrow r Hr') f Hf) as Heq.
      split; [exact Heq|]. intros _. rewrite Heq.
      clear Heq. pose proof (Hrow r Hr') as HF.
      clear -HF Hf. induction HF as [|f0 c0 fs cs H0 HF IH]; [destruct Hf|].
      destruct Hf as [->|Hf]; [rewrite H0; eauto|auto].
    + split; [reflexivity|]. intros Hlt.
      apply nth_error_None in Hr. lia.
Qed.

Lemma lookup_field_ext fields cells cells' :
  List.NoDup fields ->
  length cells = length fields -> length cells' = length fields ->
  (forall f, In f fields ->
     lookup_field f fields cells = lookup_field f fields cells') ->
  cells = cells'.
Proof.
  intros Hnd. revert cells cells'.
  induction fields as [|f0 fields IH]; intros [|c cells] [|c' cells'];
    simpl; try discriminate; intros Hl Hl' Heq; [reflexivity|].
  apply NoDup_cons_iff in Hnd as [Hf0 Hnd].
  pose proof (Heq f0 (or_introl eq_refl)) as H0.
  rewrite String.eqb_refl in H0. injection H0 as <-. f_equal.
  apply IH; [assumption|lia|lia|].
  intros f Hf. specialize (Heq f (or_intror Hf)).
  destruct (String.eqb_spec f0 f) as [->|_]; [contradiction|exact Heq].
Qed.

(** Two well-formed tables with the same distinct fields are equal when
    they have the same dates and the same value in every field. *)
Lemma DataFrame_ext df df' :
  df_columns df = df_columns df' -> List.NoDup (df_columns df) ->
  df_wf df -> df_wf df' ->
  df_index df = df_index df' ->
  (forall i f, In f (df_columns df) -> df_value df i f = df_value df' i f) ->
  df = df'.
Proof.
  destruct df as [cols rows], df' as [cols' rows']. simpl.
  intros <- Hnd Hwf Hwf' Hidx Hval. f_equal.
  unfold df_wf, df_index, df_value in *. simpl in *.
  revert rows' Hwf' Hidx Hval.
  induction rows as [|[d cs] rows IH]; intros [|[d' cs'] rows'];
    simpl; try discriminate; intros Hwf' Hidx Hval; [reflexivity|].
  injection Hidx as <- Hidx.
  apply Forall_cons_iff in Hwf as [Hc Hwf].
  apply Forall_cons_iff in Hwf' as [Hc' Hwf']. simpl in Hc, Hc'.
  f_equal.
  - f_equal. apply (lookup_field_ext cols); try assumption.
    intros f Hf. exact (Hval 0 f Hf).
  - apply IH; try assumption. intros i f Hf. exact (Hval (S i) f Hf).
Qed.

Lemma df_date_index df i : df_date df i = nth_error (df_index df) i.
Proof. unfold df_date, df_index. now rewrite nth_error_map. Qed.

Lemma price_series_tail n df : price_series df -> price_series (df_tail n df).
Proof.
  intros (Hwf & Hnd & Hin). repeat split; try assumption.
  unfold df_wf, df_tail in *. simpl. now apply lastn_Forall.
Qed.

Lemma df_value_tail n df i f :
  df_value (df_tail n df) i f = df_value df (length (df_rows df) - n + i) f.
Proof. unfold df_value, df_tail, lastn. simpl. now rewrite nth_error_skipn. Qed.

(** [data.tail(10)[five_fields]] on a price series. *)
Lemma recent_data_spec df :
  price_series df ->
  exists recent,
    df_getitem_list (df_tail 10 df) five_fields = Returned recent /\
    df_columns recent = five_fields /\
    df_wf recent /\
    df_index recent = lastn 10 (df_index df) /\
    length (df_rows recent) = Nat.min 10 (length (df_rows df)) /\
    forall i,
      df_date recent i = df_date df (length (df_rows df) - 10 + i) /\
      forall f, In f five_fields ->
        df_value recent i f
          = df_value df (length (df_rows df) - 10 + i) f /\
        (i < Nat.min 10 (length (df_rows df)) ->
         is_Some (df_value recent i f)).
Proof.
  intros Hps. destruct (price_series_tail 10 df Hps) as (Hwf & Hnd & Hin).
  destruct (df_getitem_list_spec (df_tail 10 df) five_fields
              Hwf Hnd five_fields_NoDup Hin)
    as (recent & Hsel & Hcols & Hwf' & Hidx & Hval).
  assert (Hidx' : df_index recent = lastn 10 (df_index df)).
  { rewrite Hidx. unfold df_index, df_tail. simpl. now rewrite lastn_map. }
  assert (Hlen : length (df_rows recent) = Nat.min 10 (length (df_rows df))).
  { transitivity (length (df_index recent)).
    - unfold df_index. now rewrite length_map.
    - rewrite Hidx', length_lastn. unfold df_index. now rewrite length_map. }
  exists recent. repeat split; try assumption.
  - rewrite !df_date_index, Hidx'. unfold lastn, df_index.
    now rewrite nth_error_skipn, length_map.
  - destruct (Hval i f H) as [Heq _]. rewrite Heq. apply df_value_tail.
  - intros Hlt. destruct (Hval i f H) as [_ Hsome]. apply Hsome.
    unfold df_tail. simpl. rewrite length_lastn. exact Hlt.
Qed.

(** The table put in the prompt depends on nothing but the dates and the
    five values of the last 10 rows. *)
Lemma recent_data_determined df df' :
  price_series df -> price_series df' ->
  lastn 10 (df_index df) = lastn 10 (df_index df') ->
  (forall i f, In f five_fields ->
     df_value (df_tail 10 df) i f = df_value (df_tail 10 df') i f) ->
  df_getitem_list (df_tail 10 df) five_fields
    = df_getitem_list (df_tail 10 df') five_fields.
Proof.
  intros Hps Hps' Hidx Hval.
  destruct (recent_data_spec df Hps)
    as (r & -> & Hcols & Hwf & Hi & _ & Hv).
  destruct (recent_data_spec df' Hps')
    as (r' & -> & Hcols' & Hwf' & Hi' & _ & Hv').
  f_equal. apply DataFrame_ext; try assumption.
  - congruence.
  - rewrite Hcols. apply five_fields_NoDup.
  - congruence.
  - intros i f Hf. rewrite Hcols in Hf.
    destruct (Hv i) as [_ H1]. destruct (Hv' i) as [_ H1'].
    destruct (H1 f Hf) as [-> _]. destruct (H1' f Hf) as [-> _].
    rewrite <- !df_value_tail. now apply Hval.
Qed.
End FrameFacts.

(** ** Facts about the computations *)

Section Properties.
Context {idx cell : Type}.
Local Abbreviation frame := (DataFrame idx cell).
Local Abbreviation world := (@world idx cell).

Variable to_string : frame -> string.
Variable yf_Ticker : string -> outcome Ticker.
Variable yf_history :
  list (string * string) -> Ticker -> string -> outcome frame.
Variable ollama_chat : list chat_call -> chat_call -> outcome pyval.

Local Abbreviation analyze := (analyze_with_ollama to_string ollama_chat).
Local Abbreviation fetch := (fetch_stock_data yf_Ticker yf_history).
Local Abbreviation preserving m := (@preserving idx cell _ m).

(** *** Computations that only add to the world *)

Lemma extends_refl (w : world) : extends w w.
Proof.
  repeat split; auto. exists []. now rewrite app_nil_r.
Qed.

Lemma extends_trans (w1 w2 w3 : world) :
  extends w1 w2 -> extends w2 w3 -> extends w1 w3.
Proof.
  intros (Hh & Hc & Hy & l1 & Hl1) (Hh' & Hc' & Hy' & l2 & Hl2).
  repeat split; auto; try congruence.
  exists (l1 ++ l2). rewrite Hl2, Hl1. now rewrite app_assoc.
Qed.

Lemma preserving_ret {A} (a : A) : preserving (ret a).
Proof. intros w. apply extends_refl. Qed.

Lemma preserving_lift {A} (o : outcome A) : preserving (lift o).
Proof. intros w. apply extends_refl. Qed.

Lemma preserving_bind {A B} (m : M A) (k : A -> M B) :
  preserving m -> (forall a, preserving (k a)) -> preserving (bind m k).
Proof.
  intros Hm Hk w. unfold bind. specialize (Hm w).
  destruct (m w) as [[a|e] w']; simpl in *; [|exact Hm].
  eapply extends_trans; [exact Hm|apply Hk].
Qed.

Lemma preserving_try {A} (body : M A) (handler : py_exn -> M A) :
  preserving body -> (forall e, preserving (handler e)) ->
  preserving (try_except_Exception body handler).
Proof.
  intros Hb Hh w. unfold try_except_Exception. specialize (Hb w).
  destruct (body w) as [[a|e] w']; simpl in *; [exact Hb|].
  destruct (exn_is_Exception e); simpl; [|exact Hb].
  eapply extends_trans; [exact Hb|apply Hh].
Qed.

Lemma alloc_fresh (w : world) :
  heap w !! fresh (dom (heap w)) = None.
Proof. apply (not_elem_of_dom (D := gset loc)), is_fresh. Qed.

Lemma preserving_alloc (df : frame) : preserving (alloc df).
Proof.
  intros w. unfold alloc. simpl. repeat split; simpl; auto.
  - intros l x Hl. rewrite lookup_insert_ne; [exact Hl|].
    intros <-. rewrite (alloc_fresh w) in Hl. discriminate.
  - exists []. now rewrite app_nil_r.
Qed.

Lemma preserving_deref (l : loc) : preserving (deref l).
Proof.
  intros w. unfold deref. destruct (heap w !! l); apply extends_refl.
Qed.

Lemma preserving_chat (model : string) (messages : list pyval) :
  preserving (ollama_chat_call ollama_chat model messages).
Proof.
  intros w. unfold ollama_chat_call. simpl. repeat split; simpl; auto.
  eexists. reflexivity.
Qed.

Lemma preserving_analyze (data : loc) (ticker : string) :
  preserving (analyze data ticker).
Proof.
  unfold analyze_with_ollama, DataFrame_empty, DataFrame_tail,
    DataFrame_getitem, DataFrame_to_string.
  repeat first
    [ apply preserving_bind; [|intros ?]
    | apply preserving_try; [|intros ?]
    | apply preserving_ret | apply preserving_lift | apply preserving_alloc
    | apply preserving_deref | apply preserving_chat
    | match goal with |- preserving (if ?b then _ else _) => destruct b end ].
Qed.

(** *** Running [analyze_with_ollama] on a frame that is not empty *)

(** The request analyze sends for [ticker] and the table [recent]. *)
Local Abbreviation request ticker recent :=
  (ChatCall "NeuralTicker"
     [user_message (build_prompt ticker (to_string recent))]).

Lemma analyze_run (w : world) (data : loc) (df recent : frame)
    (ticker : string) :
  heap w !! data = Some df ->
  df_empty df = false ->
  df_getitem_list (df_tail 10 df) five_fields = Returned recent ->
  let handled e :=
    if exn_is_Exception e
    then Returned (PyStr ("LLM Error: " +:+ exn_str e)) else Raised e in
  fst (analyze data ticker w) =
    match ollama_chat (chat_log w) (request ticker recent) with
    | Returned response =>
        match py_getitem response "message" with
        | Returned message =>
            match py_getitem message "content" with
            | Returned text => Returned text
            | Raised e => handled e
            end
        | Raised e => handled e
        end
    | Raised e => handled e
    end /\
  chat_log (snd (analyze data ticker w))
    = chat_log w ++ [request ticker recent].
Proof.
  intros Hdata Hne Hsel handled.
  unfold analyze_with_ollama, DataFrame_empty, DataFrame_tail,
    DataFrame_getitem, DataFrame_to_string, bind, deref, ret, lift, alloc,
    try_except_Exception, ollama_chat_call.
  repeat (first [ rewrite Hdata | rewrite Hne | rewrite Hsel
                | rewrite lookup_insert_eq ]; simpl).
  destruct (ollama_chat _ _) as [response|e]; simpl.
  - destruct (py_getitem response "message") as [message|e]; simpl.
    + destruct (py_getitem message "content") as [text|e]; simpl.
      * split; reflexivity.
      * subst handled. simpl. destruct (exn_is_Exception e); split; reflexivity.
    + subst handled. simpl. destruct (exn_is_Exception e); split; reflexivity.
  - subst handled. simpl. destruct (exn_is_Exception e); split; reflexivity.
Qed.

Lemma price_series_not_empty (df : frame) :
  price_series df -> 0 < length (df_rows df) -> df_empty df = false.
Proof.
  intros (_ & _ & Hin) Hrows. unfold df_empty.
  destruct (df_columns df) as [|c cols].
  - destruct (Hin "Open"). now left.
  - destruct (df_rows df); [simpl in Hrows; lia|reflexivity].
Qed.

Lemma py_getitem_raises_Exception (v : pyval) (k : string) (e : py_exn) :
  py_getitem v k = Raised e -> exn_is_Exception e = true.
Proof.
  destruct v; simpl; try (intros [= <-]; reflexivity).
  destruct (d !! k); [discriminate|]. intros [= <-]. reflexivity.
Qed.

(** What analyze sends for a price series that is not empty: one request,
    built from the table [data.tail(10)[five_fields]]. *)
Lemma analyze_sends (w : world) (data : loc) (df : frame) (ticker : string) :
  heap w !! data = Some df -> price_series df -> df_empty df = false ->
  exists recent,
    df_getitem_list (df_tail 10 df) five_fields = Returned recent /\
    chat_log (snd (analyze data ticker w))
      = chat_log w ++ [request ticker recent].
Proof.
  intros Hdata Hps Hne.
  destruct (recent_data_spec df Hps) as (recent & Hsel & _).
  exists recent. split; [exact Hsel|].
  apply (analyze_run w data df recent ticker Hdata Hne Hsel).
Qed.

(** *** The claims about [analyze_with_ollama] *)

(** C2: for an empty price series, whatever the ticker, analyze returns
    exactly "No data available for analysis." and the world is left as it
    was; in particular no request is sent to the chat service. *)
Theorem analyze_empty_series (w : world) (data : loc) (df : frame)
    (ticker : string) :
  heap w !! data = Some df ->
  df_empty df = true ->
  analyze data ticker w
    = (Returned (PyStr "No data available for analysis."), w) /\
  chat_log (snd (analyze data ticker w)) = chat_log w.
Proof.
  intros Hdata Hempty.
  assert (Hrun : analyze data ticker w
            = (Returned (PyStr "No data available for analysis."), w)).
  { unfold analyze_with_ollama, DataFrame_empty, bind, deref, ret.
    rewrite Hdata. simpl. rewrite Hempty. reflexivity. }
  split; [exact Hrun|]. now rewrite Hrun.
Qed.

(** C1: for a price series with at least 10 rows, the one request analyze
    sends carries a prompt made of the ticker and of the rendering of a
    table that has exactly the five fields open, high, low, close and
    volume and exactly 10 rows, row [i] of which has the date and the five
    values of row [n - 10 + i] of the series ([n] its number of rows). *)
Theorem analyze_prompt_last_10_rows (w : world) (data : loc) (df : frame)
    (ticker : string) :
  heap w !! data = Some df ->
  price_series df ->
  10 <= length (df_rows df) ->
  exists recent,
    chat_log (snd (analyze data ticker w))
      = chat_log w
        ++ [ChatCall "NeuralTicker"
              [user_message (build_prompt ticker (to_string recent))]] /\
    occurs_in ticker (build_prompt ticker (to_string recent)) /\
    occurs_in (to_string recent) (build_prompt ticker (to_string recent)) /\
    df_columns recent = ["Open"; "High"; "Low"; "Close"; "Volume"] /\
    df_wf recent /\
    length (df_rows recent) = 10 /\
    forall i, i < 10 ->
      df_date recent i = df_date df (length (df_rows df) - 10 + i) /\
      forall f, In f ["Open"; "High"; "Low"; "Close"; "Volume"] ->
        is_Some (df_value recent i f) /\
        df_value recent i f
          = df_value df (length (df_rows df) - 10 + i) f.
Proof.
  intros Hdata Hps Hlen.
  assert (Hne : df_empty df = false)
    by (apply price_series_not_empty; [assumption|lia]).
  destruct (recent_data_spec df Hps)
    as (recent & Hsel & Hcols & Hwf & _ & Hrows & Hval).
  exists recent. split; [|split; [|split; [|split; [|split; [|split]]]]].
  - apply (analyze_run w data df recent ticker Hdata Hne Hsel).
  - unfold build_prompt. find_piece.
  - unfold build_prompt. find_piece.
  - exact Hcols.
  - exact Hwf.
  - rewrite Hrows. lia.
  - intros i Hi. destruct (Hval i) as [Hd Hv]. split; [exact Hd|].
    intros f Hf. destruct (Hv f Hf) as [Heq Hsome]. split; [|exact Heq].
    apply Hsome. lia.
Qed.

(** C4: for a non-empty price series with fewer than 10 rows, the table in
    the prompt has as many rows as the series, and row [i] of it has the
    date and the five values of row [i] of the series: all rows, none
    added, none dropped. *)
Theorem analyze_prompt_short_series (w : world) (data : loc) (df : frame)
    (ticker : string) :
  heap w !! data = Some df ->
  price_series df ->
  0 < length (df_rows df) < 10 ->
  exists recent,
    chat_log (snd (analyze data ticker w))
      = chat_log w
        ++ [ChatCall "NeuralTicker"
              [user_message (build_prompt ticker (to_string recent))]] /\
    occurs_in (to_string recent) (build_prompt ticker (to_string recent)) /\
    df_columns recent = ["Open"; "High"; "Low"; "Close"; "Volume"] /\
    df_wf recent /\
    length (df_rows recent) = length (df_rows df) /\
    df_index recent = df_index df /\
    forall i, i < length (df_rows df) ->
      df_date recent i = df_date df i /\
      forall f, In f ["Open"; "High"; "Low"; "Close"; "Volume"] ->
        is_Some (df_value recent i f) /\
        df_value recent i f = df_value df i f.
Proof.
  intros Hdata Hps [Hpos Hlen].
  assert (Hne : df_empty df = false)
    by (apply price_series_not_empty; assumption).
  destruct (recent_data_spec df Hps)
    as (recent & Hsel & Hcols & Hwf & Hidx & Hrows & Hval).
  replace (length (df_rows df) - 10) with 0 in Hval by lia.
  exists recent. split; [|split; [|split; [|split; [|split; [|split]]]]].
  - apply (analyze_run w data df recent ticker Hdata Hne Hsel).
  - unfold build_prompt. find_piece.
  - exact Hcols.
  - exact Hwf.
  - rewrite Hrows. lia.
  - rewrite Hidx. apply lastn_all. unfold df_index. rewrite length_map. lia.
  - intros i Hi. destruct (Hval i) as [Hd Hv]. split; [exact Hd|].
    intros f Hf. destruct (Hv f Hf) as [Heq Hsome]. split; [|exact Heq].
    apply Hsome. lia.
Qed.

(** C8: for a non-empty price series and any ticker, the prompt analyze
    sends is the fixed template: a fixed opening that introduces the
    ticker, the ticker, a fixed heading, the table as text, and a fixed
    closing part that lists the four tasks (short-term trend, volatility,
    Buy / Sell / Hold recommendation, brief reasoning) and tells the model
    to limit the response to 200 words. *)
Theorem analyze_prompt_template (w : world) (data : loc) (df : frame)
    (ticker : string) :
  heap w !! data = Some df ->
  price_series df ->
  df_empty df = false ->
  exists recent prompt,
    df_getitem_list (df_tail 10 df) five_fields = Returned recent /\
    chat_log (snd (analyze data ticker w))
      = chat_log w ++ [ChatCall "NeuralTicker" [user_message prompt]] /\
    prompt = prompt_opening +:+ ticker +:+ prompt_data_heading
             +:+ to_string recent +:+ prompt_tasks /\
    occurs_in ("Stock ticker: " +:+ ticker) prompt /\
    occurs_in ("Recent market data:" +:+ nl +:+ to_string recent) prompt /\
    occurs_in "1. Identify short-term trend" prompt /\
    occurs_in "2. Comment on volatility" prompt /\
    occurs_in "3. Provide a Buy / Sell / Hold recommendation" prompt /\
    occurs_in "4. Brief reasoning" prompt /\
    occurs_in "Limit response to 200 words." prompt.
Proof.
  intros Hdata Hps Hne.
  destruct (analyze_sends w data df ticker Hdata Hps Hne)
    as (recent & Hsel & Hlog).
  exists recent, (build_prompt ticker (to_string recent)).
  split; [exact Hsel|]. split; [exact Hlog|].
  split; [reflexivity|].
  unfold build_prompt.
  repeat split; try find_piece.
  - exists (nl +:+ "You are a financial analyst." +:+ nl +:+ nl).
    eexists. rewrite !append_assoc. reflexivity.
  - exists (nl +:+ "You are a financial analyst." +:+ nl +:+ nl
            +:+ "Stock ticker: " +:+ ticker +:+ nl +:+ nl).
    eexists. rewrite !append_assoc. reflexivity.
Qed.

(** C6: for a non-empty price series, analyze sends exactly one request,
    to the model "NeuralTicker", whose messages are one message with role
    "user" carrying the prompt; and when that call returns a response that
    holds a message with a content, analyze returns that content as it
    is. *)
Theorem analyze_one_user_message_reply_verbatim (w : world) (data : loc)
    (df : frame) (ticker : string) :
  heap w !! data = Some df ->
  price_series df ->
  df_empty df = false ->
  exists recent,
    let prompt := build_prompt ticker (to_string recent) in
    let call :=
      ChatCall "NeuralTicker"
        [PyDict {[ "role" := PyStr "user"; "content" := PyStr prompt ]}] in
    df_getitem_list (df_tail 10 df) five_fields = Returned recent /\
    chat_log (snd (analyze data ticker w)) = chat_log w ++ [call] /\
    forall response message text,
      ollama_chat (chat_log w) call = Returned response ->
      py_getitem response "message" = Returned message ->
      py_getitem message "content" = Returned text ->
      fst (analyze data ticker w) = Returned text.
Proof.
  intros Hdata Hps Hne.
  destruct (recent_data_spec df Hps) as (recent & Hsel & _).
  destruct (analyze_run w data df recent ticker Hdata Hne Hsel)
    as [Hres Hlog].
  exists recent. cbv zeta. split; [exact Hsel|]. split; [exact Hlog|].
  intros response message text Hchat Hmsg Htext.
  rewrite Hres. unfold user_message. rewrite Hchat, Hmsg, Htext. reflexivity.
Qed.

(** C3, amended: for a non-empty price series, if the model call raises an
    exception whose class derives from Exception, analyze returns the
    string "LLM Error: " followed by the text of the exception, and raises
    nothing. *)
Theorem analyze_converts_Exception (w : world) (data : loc) (df : frame)
    (ticker : string) :
  heap w !! data = Some df ->
  price_series df ->
  df_empty df = false ->
  exists recent,
    df_getitem_list (df_tail 10 df) five_fields = Returned recent /\
    forall e,
      ollama_chat (chat_log w)
        (ChatCall "NeuralTicker"
           [user_message (build_prompt ticker (to_string recent))])
        = Raised e ->
      exn_is_Exception e = true ->
      fst (analyze data ticker w)
        = Returned (PyStr ("LLM Error: " +:+ exn_str e)).
Proof.
  intros Hdata Hps Hne.
  destruct (recent_data_spec df Hps) as (recent & Hsel & _).
  destruct (analyze_run w data df recent ticker Hdata Hne Hsel)
    as [Hres _].
  exists recent. split; [exact Hsel|].
  intros e Hchat Hexc. rewrite Hres, Hchat, Hexc. reflexivity.
Qed.

(** C9, amended: for a non-empty price series with the five fields, if the
    model call returns anything at all or raises an exception whose class
    derives from Exception, analyze returns a value and raises nothing.
    The handler also covers reading the reply out of the response: when
    [response["message"]] or [...["content"]] raises, the result is the
    string "LLM Error: " followed by the text of that error; for a
    response that is a dict without the key message it is
    "LLM Error: 'message'". *)
Theorem analyze_total_on_Exception (w : world) (data : loc) (df : frame)
    (ticker : string) :
  heap w !! data = Some df ->
  price_series df ->
  df_empty df = false ->
  exists recent,
    let call :=
      ChatCall "NeuralTicker"
        [user_message (build_prompt ticker (to_string recent))] in
    df_getitem_list (df_tail 10 df) five_fields = Returned recent /\
    (catchable (ollama_chat (chat_log w) call) ->
     exists v, fst (analyze data ticker w) = Returned v) /\
    (forall response e,
       ollama_chat (chat_log w) call = Returned response ->
       py_getitem response "message" = Raised e \/
       (exists message, py_getitem response "message" = Returned message /\
                        py_getitem message "content" = Raised e) ->
       fst (analyze data ticker w)
         = Returned (PyStr ("LLM Error: " +:+ exn_str e))) /\
    (forall d,
       ollama_chat (chat_log w) call = Returned (PyDict d) ->
       d !! "message" = None ->
       fst (analyze data ticker w) = Returned (PyStr "LLM Error: 'message'")).
Proof.
  intros Hdata Hps Hne.
  destruct (recent_data_spec df Hps) as (recent & Hsel & _).
  destruct (analyze_run w data df recent ticker Hdata Hne Hsel)
    as [Hres _].
  exists recent. cbv zeta. split; [exact Hsel|]. split; [|split].
  - intros Hcatch. rewrite Hres.
    destruct (ollama_chat _ _) as [response|e]; simpl in Hcatch.
    + destruct (py_getitem response "message") as [message|e] eqn:Hm.
      * destruct (py_getitem message "content") as [text|e] eqn:Hc; [eauto|].
        rewrite (py_getitem_raises_Exception _ _ _ Hc). eauto.
      * rewrite (py_getitem_raises_Exception _ _ _ Hm). eauto.
    + rewrite Hcatch. eauto.
  - intros response e Hchat [Hm|(message & Hm & Hc)]; rewrite Hres, Hchat, Hm.
    + now rewrite (py_getitem_raises_Exception _ _ _ Hm).
    + now rewrite Hc, (py_getitem_raises_Exception _ _ _ Hc).
  - intros d Hchat Hd. rewrite Hres, Hchat. simpl. rewrite Hd. reflexivity.
Qed.

(** C10: analyze changes no frame that exists when it is called, the
    series it is given included, whatever the series and the ticker; and
    for a non-empty price series the dates of the table in the prompt are
    the last (at most 10) dates of the series in the same order, so sorted
    whenever the series is. *)
Theorem analyze_leaves_series_unchanged (w : world) (data : loc)
    (df : frame) (ticker : string) :
  heap w !! data = Some df ->
  heap (snd (analyze data ticker w)) !! data = Some df /\
  (forall l other, heap w !! l = Some other ->
     heap (snd (analyze data ticker w)) !! l = Some other) /\
  (price_series df -> df_empty df = false ->
   exists recent,
     chat_log (snd (analyze data ticker w))
       = chat_log w
         ++ [ChatCall "NeuralTicker"
               [user_message (build_prompt ticker (to_string recent))]] /\
     df_index recent = lastn 10 (df_index df) /\
     forall R : idx -> idx -> Prop,
       Sorted R (df_index df) -> Sorted R (df_index recent)).
Proof.
  intros Hdata.
  destruct (preserving_analyze data ticker w) as (Hheap & _).
  split; [now apply Hheap|]. split; [exact Hheap|].
  intros Hps Hne.
  destruct (recent_data_spec df Hps) as (recent & Hsel & _ & _ & Hidx & _).
  exists recent. split; [|split].
  - apply (analyze_run w data df recent ticker Hdata Hne Hsel).
  - exact Hidx.
  - intros R HR. rewrite Hidx. unfold lastn. now apply Sorted_skipn.
Qed.

(** *** Running [fetch_stock_data] *)

Local Abbreviation fetch_body :=
  (fetch_stock_data_body yf_Ticker yf_history).
Local Abbreviation step :=
  (@step idx cell to_string yf_Ticker yf_history ollama_chat).

Lemma fetch_body_run (ticker period : string) (w : world) :
  fetch_body ticker period w =
    match yf_Ticker ticker with
    | Raised e => (Raised e, w)
    | Returned stock =>
        let w' := mkWorld (heap w) (cache w)
                          (yf_log w ++ [(ticker_symbol stock, period)])
                          (chat_log w) in
        match yf_history (yf_log w) stock period with
        | Raised e => (Raised e, w')
        | Returned df =>
            (Returned (fresh (dom (heap w))),
             mkWorld (<[fresh (dom (heap w)) := df]> (heap w)) (cache w)
                     (yf_log w ++ [(ticker_symbol stock, period)])
                     (chat_log w))
        end
    end.
Proof.
  unfold fetch_stock_data_body, bind, lift, Ticker_history, alloc, ret.
  destruct (yf_Ticker ticker) as [stock|e]; [|reflexivity].
  destruct (yf_history (yf_log w) stock period); reflexivity.
Qed.

Lemma fetch_body_cache (ticker period : string) (w : world) :
  cache (snd (fetch_body ticker period w)) = cache w.
Proof.
  rewrite fetch_body_run.
  destruct (yf_Ticker ticker) as [stock|e]; [|reflexivity].
  simpl. destruct (yf_history (yf_log w) stock period); reflexivity.
Qed.

Lemma fetch_hit (ticker period : string) (w : world) (df : frame) :
  cache w !! (ticker, period) = Some df ->
  fetch ticker period w
    = (Returned (fresh (dom (heap w))),
       mkWorld (<[fresh (dom (heap w)) := df]> (heap w)) (cache w)
               (yf_log w) (chat_log w)).
Proof.
  intros Hhit. unfold fetch_stock_data, cache_data. now rewrite Hhit.
Qed.

Lemma fetch_miss (ticker period : string) (w : world) :
  cache w !! (ticker, period) = None ->
  fetch ticker period w =
    match fetch_body ticker period w with
    | (Raised e, w') => (Raised e, w')
    | (Returned r, w') =>
        match heap w' !! r with
        | Some df =>
            (Returned r,
             mkWorld (heap w') (<[(ticker, period) := df]> (cache w'))
                     (yf_log w') (chat_log w'))
        | None =>
            (Raised (PyExn "SystemError" true "dangling reference"), w')
        end
    end.
Proof.
  intros Hmiss. unfold fetch_stock_data, cache_data. rewrite Hmiss.
  unfold bind, deref.
  destruct (fetch_stock_data_body _ _ _ _ w) as [[r|e] w']; [|reflexivity].
  destruct (heap w' !! r); reflexivity.
Qed.

(** A fetch that returned has left its result in the cache. *)
Lemma fetch_returned_cached (ticker period : string) (w w' : world)
    (r : loc) :
  fetch ticker period w = (Returned r, w') ->
  exists df, heap w' !! r = Some df /\ cache w' !! (ticker, period) = Some df.
Proof.
  intros Hrun. destruct (cache w !! (ticker, period)) as [df|] eqn:Hc.
  - rewrite (fetch_hit _ _ _ _ Hc) in Hrun. injection Hrun as <- <-.
    exists df. simpl. split; [apply lookup_insert_eq|exact Hc].
  - rewrite (fetch_miss _ _ _ Hc) in Hrun.
    destruct (fetch_body ticker period w) as [[r0|e] w0]; [|discriminate].
    destruct (heap w0 !! r0) as [df|] eqn:Hr; [|discriminate].
    injection Hrun as <- <-. exists df. simpl.
    split; [exact Hr|apply lookup_insert_eq].
Qed.

(** No step of the process removes or replaces a cache entry. *)
Lemma fetch_keeps_cache (ticker period : string) (w : world)
    (k : string * string) (df : frame) :
  cache w !! k = Some df ->
  cache (snd (fetch ticker period w)) !! k = Some df.
Proof.
  intros Hk. destruct (cache w !! (ticker, period)) as [df'|] eqn:Hc.
  - rewrite (fetch_hit _ _ _ _ Hc). exact Hk.
  - rewrite (fetch_miss _ _ _ Hc).
    pose proof (fetch_body_cache ticker period w) as Hsame.
    destruct (fetch_body ticker period w) as [[r|e] w']; simpl in *.
    + destruct (heap w' !! r); simpl; [|now rewrite Hsame].
      rewrite lookup_insert_ne; [now rewrite Hsame|].
      intros <-. rewrite Hc in Hk. discriminate.
    + now rewrite Hsame.
Qed.

Lemma step_keeps_cache (w w' : world) (k : string * string) (df : frame) :
  step w w' -> cache w !! k = Some df -> cache w' !! k = Some df.
Proof.
  intros Hstep Hk. destruct Hstep as [ticker period w|data ticker w|l x w].
  - now apply fetch_keeps_cache.
  - destruct (preserving_analyze data ticker w) as (_ & Hcache & _).
    now rewrite Hcache.
  - exact Hk.
Qed.

Lemma steps_keep_cache (w w' : world) (k : string * string) (df : frame) :
  rtc step w w' -> cache w !! k = Some df -> cache w' !! k = Some df.
Proof.
  induction 1 as [w|w w1 w2 Hstep _ IH]; intros Hk; [exact Hk|].
  apply IH. eapply step_keeps_cache; eassumption.
Qed.

(** *** The claims about [fetch_stock_data] *)

(** C5: once a fetch of a (ticker, window) pair has returned, then after
    whatever the process does next (fetches, analyses, changes to frames)
    a fetch of the same pair returns, its result holds a table equal to
    the one the first fetch returned, and no request goes to the
    provider. *)
Theorem fetch_memoized (ticker period : string) (w0 w1 w2 : world)
    (r1 : loc) :
  fetch ticker period w0 = (Returned r1, w1) ->
  rtc step w1 w2 ->
  exists r2 w3 df,
    fetch ticker period w2 = (Returned r2, w3) /\
    heap w1 !! r1 = Some df /\
    heap w3 !! r2 = Some df /\
    yf_log w3 = yf_log w2.
Proof.
  intros Hfirst Hsteps.
  destruct (fetch_returned_cached _ _ _ _ _ Hfirst) as (df & Hr1 & Hc1).
  pose proof (steps_keep_cache _ _ _ _ Hsteps Hc1) as Hc2.
  eexists _, _, df. split; [apply (fetch_hit _ _ _ _ Hc2)|].
  split; [exact Hr1|]. split; [apply lookup_insert_eq|reflexivity].
Qed.

(** C7: whatever exception the provider's library raises, when building
    the ticker object or when asked for the history, comes out of the
    function body as it is; and so it does out of the memoized function,
    which runs the body when it has no entry for the pair, and then also
    stores nothing. *)
Theorem fetch_propagates_transport_errors (ticker period : string)
    (w : world) (e : py_exn) :
  yf_Ticker ticker = Raised e \/
  (exists stock, yf_Ticker ticker = Returned stock /\
                 yf_history (yf_log w) stock period = Raised e) ->
  fst (fetch_body ticker period w) = Raised e /\
  (cache w !! (ticker, period) = None ->
   fst (fetch ticker period w) = Raised e /\
   cache (snd (fetch ticker period w)) = cache w).
Proof.
  intros Hraise.
  assert (Hbody : exists w', fetch_body ticker period w = (Raised e, w')
                             /\ cache w' = cache w).
  { rewrite fetch_body_run.
    destruct Hraise as [Ht|(stock & Ht & Hh)]; rewrite Ht.
    - eauto.
    - simpl. rewrite Hh. eauto. }
  destruct Hbody as (w' & Hbody & Hcache).
  split; [now rewrite Hbody|].
  intros Hmiss. rewrite (fetch_miss _ _ _ Hmiss), Hbody. simpl. auto.
Qed.

(** *** More about [analyze_with_ollama] *)

(** Whatever the frame and the ticker, analyze leaves the cache and the
    provider alone and sends the chat service nothing or exactly one
    request, to the model "NeuralTicker" with one user message. *)
Theorem analyze_at_most_one_request (w : world) (data : loc)
    (ticker : string) :
  cache (snd (analyze data ticker w)) = cache w /\
  yf_log (snd (analyze data ticker w)) = yf_log w /\
  (chat_log (snd (analyze data ticker w)) = chat_log w \/
   exists prompt,
     chat_log (snd (analyze data ticker w))
       = chat_log w ++ [ChatCall "NeuralTicker" [user_message prompt]]).
Proof.
  destruct (preserving_analyze data ticker w) as (_ & Hcache & Hlog & _).
  split; [exact Hcache|]. split; [exact Hlog|].
  unfold analyze_with_ollama, DataFrame_empty, DataFrame_tail,
    DataFrame_getitem, DataFrame_to_string, bind, deref, ret, lift, alloc,
    try_except_Exception, ollama_chat_call.
  destruct (heap w !! data) as [df|] eqn:Hdata; simpl; [|now left].
  destruct (df_empty df); simpl; [now left|].
  rewrite Hdata. simpl. rewrite lookup_insert_eq. simpl.
  destruct (df_getitem_list (df_tail 10 df) five_fields) as [recent|e];
    simpl; [|now left].
  rewrite lookup_insert_eq. simpl. right.
  exists (build_prompt ticker (to_string recent)).
  destruct (ollama_chat _ _) as [response|e]; simpl.
  - destruct (py_getitem response "message") as [message|e]; simpl.
    + destruct (py_getitem message "content") as [text|e]; simpl;
        [reflexivity|]. destruct (exn_is_Exception e); reflexivity.
    + destruct (exn_is_Exception e); reflexivity.
  - destruct (exn_is_Exception e); reflexivity.
Qed.

Lemma df_getitem_list_missing (df : frame) (labels : list string)
    (f : string) :
  In f labels -> ~ In f (df_columns df) ->
  exists msg, df_getitem_list df labels = Raised (KeyError msg).
Proof.
  intros Hf Hnot. unfold df_getitem_list.
  destruct (List.filter _ labels) as [|m ms] eqn:Hfilter; [|eauto].
  exfalso.
  assert (Hin : In f (List.filter
                        (fun l => match positions l (df_columns df) with
                                  | [] => true
                                  | _ :: _ => false
                                  end) labels)).
  { apply filter_In. split; [exact Hf|].
    unfold positions. now rewrite positions_from_absent. }
  rewrite Hfilter in Hin. destruct Hin.
Qed.

(** The restriction to the five fields (line 38) comes before the [try]:
    on a frame that is not empty and lacks one of the five fields analyze
    raises [KeyError] and sends no request to the chat service. *)
Theorem analyze_missing_field (w : world) (data : loc) (df : frame)
    (ticker f : string) :
  heap w !! data = Some df ->
  df_empty df = false ->
  In f ["Open"; "High"; "Low"; "Close"; "Volume"] ->
  ~ In f (df_columns df) ->
  (exists msg, fst (analyze data ticker w) = Raised (KeyError msg)) /\
  chat_log (snd (analyze data ticker w)) = chat_log w.
Proof.
  intros Hdata Hne Hf Hnot.
  destruct (df_getitem_list_missing (df_tail 10 df) five_fields f Hf Hnot)
    as [msg Hsel].
  unfold analyze_with_ollama, DataFrame_empty, DataFrame_tail,
    DataFrame_getitem, bind, deref, ret, lift, alloc.
  rewrite Hdata. simpl. rewrite Hne. simpl.
  rewrite Hdata. simpl. rewrite lookup_insert_eq. simpl.
  rewrite Hsel. simpl. split; [eauto|reflexivity].
Qed.

(** Analyses are not remembered: analysing the same non-empty price series
    for the same ticker twice sends the same request twice. *)
Theorem analyze_twice_two_requests (w : world) (data : loc) (df : frame)
    (ticker : string) :
  heap w !! data = Some df ->
  price_series df ->
  df_empty df = false ->
  exists recent,
    chat_log (snd (analyze data ticker (snd (analyze data ticker w))))
      = chat_log w
        ++ [ChatCall "NeuralTicker"
              [user_message (build_prompt ticker (to_string recent))];
            ChatCall "NeuralTicker"
              [user_message (build_prompt ticker (to_string recent))]].
Proof.
  intros Hdata Hps Hne.
  destruct (recent_data_spec df Hps) as (recent & Hsel & _).
  destruct (analyze_run w data df recent ticker Hdata Hne Hsel) as [_ Hlog].
  destruct (preserving_analyze data ticker w) as (Hheap & _).
  destruct (analyze_run (snd (analyze data ticker w)) data df recent ticker
              (Hheap _ _ Hdata) Hne Hsel) as [_ Hlog'].
  exists recent. rewrite Hlog', Hlog, <- app_assoc. reflexivity.
Qed.

(** *** More about [fetch_stock_data] *)

Lemma fetch_miss_provider_run (ticker period : string)
    (w : world) (stock : Ticker) (df : frame) :
  cache w !! (ticker, period) = None ->
  yf_Ticker ticker = Returned stock ->
  yf_history (yf_log w) stock period = Returned df ->
  fetch ticker period w
    = (Returned (fresh (dom (heap w))),
       mkWorld (<[fresh (dom (heap w)) := df]> (heap w))
               (<[(ticker, period) := df]> (cache w))
               (yf_log w ++ [(ticker_symbol stock, period)])
               (chat_log w)).
Proof.
  intros Hmiss Ht Hh.
  rewrite (fetch_miss _ _ _ Hmiss), fetch_body_run, Ht. simpl. rewrite Hh.
  simpl. now rewrite lookup_insert_eq.
Qed.

(** With no entry for the pair, and the provider answering, fetch asks the
    provider exactly once, for the symbol of the ticker object and the
    period, returns a new object holding the provider's table as it is, and
    keeps that table in the cache under the pair. *)
Theorem fetch_miss_returns_provider_table (ticker period : string)
    (w : world) (stock : Ticker) (df : frame) :
  cache w !! (ticker, period) = None ->
  yf_Ticker ticker = Returned stock ->
  yf_history (yf_log w) stock period = Returned df ->
  exists r w',
    fetch ticker period w = (Returned r, w') /\
    heap w !! r = None /\
    heap w' !! r = Some df /\
    yf_log w' = yf_log w ++ [(ticker_symbol stock, period)] /\
    cache w' !! (ticker, period) = Some df /\
    chat_log w' = chat_log w.
Proof.
  intros Hmiss Ht Hh.
  eexists _, _.
  split; [apply (fetch_miss_provider_run _ _ _ _ _ Hmiss Ht Hh)|]. simpl.
  split; [apply alloc_fresh|]. split; [apply lookup_insert_eq|].
  split; [reflexivity|]. split; [apply lookup_insert_eq|reflexivity].
Qed.

Lemma fetch_raised_miss (ticker period : string) (w w' : world)
    (e : py_exn) :
  fetch ticker period w = (Raised e, w') ->
  cache w !! (ticker, period) = None /\ cache w' = cache w.
Proof.
  intros Hrun. destruct (cache w !! (ticker, period)) as [df|] eqn:Hc.
  - rewrite (fetch_hit _ _ _ _ Hc) in Hrun. discriminate.
  - split; [reflexivity|].
    pose proof (fetch_body_cache ticker period w) as Hsame.
    rewrite (fetch_miss _ _ _ Hc) in Hrun.
    destruct (fetch_body ticker period w) as [[r|e0] w0]; simpl in *.
    + destruct (heap w0 !! r); [discriminate|].
      injection Hrun as _ <-. exact Hsame.
    + injection Hrun as _ <-. exact Hsame.
Qed.

(** Failures are not remembered: after a fetch that raised there is still
    no entry for the pair, and the next fetch of the pair asks the provider
    again and returns what it then answers. *)
Theorem fetch_failure_not_cached (ticker period : string) (w w' : world)
    (e : py_exn) :
  fetch ticker period w = (Raised e, w') ->
  cache w' !! (ticker, period) = None /\
  forall stock df,
    yf_Ticker ticker = Returned stock ->
    yf_history (yf_log w') stock period = Returned df ->
    exists r w'',
      fetch ticker period w' = (Returned r, w'') /\
      heap w'' !! r = Some df /\
      yf_log w'' = yf_log w' ++ [(ticker_symbol stock, period)].
Proof.
  intros Hrun. destruct (fetch_raised_miss _ _ _ _ _ Hrun) as [Hmiss Hsame].
  assert (Hmiss' : cache w' !! (ticker, period) = None) by now rewrite Hsame.
  split; [exact Hmiss'|]. intros stock df Ht Hh.
  eexists _, _.
  split; [apply (fetch_miss_provider_run _ _ _ _ _ Hmiss' Ht Hh)|]. simpl.
  split; [apply lookup_insert_eq|reflexivity].
Qed.

Lemma fetch_frame_run (ticker period : string) (w : world) :
  (forall k, k <> (ticker, period) ->
     cache (snd (fetch ticker period w)) !! k = cache w !! k) /\
  extends_heap_and_chat w (snd (fetch ticker period w)).
Proof.
  assert (Hkeep : forall (l : loc) (df x : frame),
            heap w !! l = Some df ->
            <[fresh (dom (heap w)) := x]> (heap w) !! l = Some df).
  { intros l df x Hl. rewrite lookup_insert_ne; [exact Hl|].
    intros <-. rewrite alloc_fresh in Hl. discriminate. }
  unfold extends_heap_and_chat.
  destruct (cache w !! (ticker, period)) as [df0|] eqn:Hc.
  - rewrite (fetch_hit _ _ _ _ Hc). simpl. repeat split; auto.
  - rewrite (fetch_miss _ _ _ Hc), fetch_body_run.
    destruct (yf_Ticker ticker) as [stock|e]; simpl; [|repeat split; auto].
    destruct (yf_history (yf_log w) stock period) as [df0|e]; simpl;
      [|repeat split; auto].
    rewrite lookup_insert_eq. simpl. repeat split; auto.
    intros k Hk. now rewrite lookup_insert_ne.
Qed.

(** A fetch changes the cache at most under its own pair of arguments,
    changes no frame that exists, and sends nothing to the chat service. *)
Theorem fetch_frame (ticker period : string) (w : world) :
  (forall k, k <> (ticker, period) ->
     cache (snd (fetch ticker period w)) !! k = cache w !! k) /\
  (forall l df, heap w !! l = Some df ->
     heap (snd (fetch ticker period w)) !! l = Some df) /\
  chat_log (snd (fetch ticker period w)) = chat_log w.
Proof.
  destruct (fetch_frame_run ticker period w) as (Hkeys & Hheap & Hchat).
  split; [exact Hkeys|]. split; [exact Hheap|exact Hchat].
Qed.
End Properties.


(** ** Facts about the page *)

Section PageProperties.
Context {idx cell : Type}.
Local Abbreviation frame := (DataFrame idx cell).
Local Abbreviation world := (@world idx cell).
Local Abbreviation session := (@session idx cell).

Variable to_string : frame -> string.
Variable yf_Ticker : string -> outcome Ticker.
Variable yf_history :
  list (string * string) -> Ticker -> string -> outcome frame.
Variable ollama_chat : list chat_call -> chat_call -> outcome pyval.
Variable str_upper : string -> string.

Local Abbreviation analyze := (analyze_with_ollama to_string ollama_chat).
Local Abbreviation fetch := (fetch_stock_data yf_Ticker yf_history).
Local Abbreviation script :=
  (main_script to_string yf_Ticker yf_history ollama_chat str_upper).

(** *** [plot_stock_price] *)

(** [df[label]] when exactly one column carries the label. *)
Lemma df_getitem_label_unique (df : frame) (label : string) :
  df_wf df -> List.NoDup (df_columns df) -> In label (df_columns df) ->
  exists y,
    df_getitem_label df label = Returned y /\
    df_columns y = [label] /\
    df_wf y /\
    df_index y = df_index df /\
    forall i, df_value y i label = df_value df i label.
Proof.
  intros Hwf Hnd Hin.
  destruct (df_getitem_list_spec df [label] Hwf Hnd) as
    (y & Hsel & Hcols & Hwfy & Hidx & Hval).
  { constructor; [intros []|constructor]. }
  { intros f [<-|[]]. exact Hin. }
  exists y. repeat split; try assumption.
  - destruct (positions_from_unique (cell := cell) 0 label (df_columns df)
                Hnd Hin) as (p & Hp & _).
    change (positions_from 0 label (df_columns df))
      with (positions label (df_columns df)) in Hp.
    unfold df_getitem_label. unfold df_getitem_list in Hsel.
    simpl in Hsel. rewrite Hp in *. simpl in Hsel. exact Hsel.
  - intros i. apply Hval. now left.
Qed.

Lemma plot_leaves_world (data : loc) (ticker : string) (s : session) :
  sess_world (snd (plot_stock_price data ticker s)) = sess_world s.
Proof.
  unfold plot_stock_price, ui_bind, run, emit, DataFrame_index,
    DataFrame_getitem_label, bind, deref, ret, lift. simpl.
  destruct (heap (sess_world s) !! data) as [df|] eqn:Hdata; simpl;
    [|reflexivity].
  rewrite Hdata. simpl.
  destruct (df_getitem_label df "Close"); reflexivity.
Qed.

Lemma plot_chart_run (s : session) (data : loc) (df y : frame)
    (ticker : string) :
  heap (sess_world s) !! data = Some df ->
  df_getitem_label df "Close" = Returned y ->
  plot_stock_price data ticker s
    = (Returned tt,
       mkSession (sess_world s)
                 (sess_page s ++ chart (df_index df) y ticker)).
Proof.
  intros Hdata Hsel.
  unfold plot_stock_price, ui_bind, run, emit, DataFrame_index,
    DataFrame_getitem_label, bind, deref, ret, lift. simpl.
  rewrite Hdata. simpl. rewrite Hdata. simpl. rewrite Hsel. simpl.
  unfold chart. repeat rewrite <- app_assoc. reflexivity.
Qed.

(** On a well-formed table with distinct labels that has a close column,
    the chart is drawn and displayed: one line, with the dates of the table
    as abscissas and, for each row, its close value; the process is left as
    it was. *)
Theorem plot_draws_close_by_date (s : session) (data : loc) (df : frame)
    (ticker : string) :
  heap (sess_world s) !! data = Some df ->
  df_wf df ->
  List.NoDup (df_columns df) ->
  In "Close" (df_columns df) ->
  exists y,
    plot_stock_price data ticker s
      = (Returned tt,
         mkSession (sess_world s)
                   (sess_page s ++ chart (df_index df) y ticker)) /\
    df_columns y = ["Close"] /\
    length (df_index df) = length (df_rows df) /\
    length (df_rows y) = length (df_rows df) /\
    df_index y = df_index df /\
    forall i, df_value y i "Close" = df_value df i "Close".
Proof.
  intros Hdata Hwf Hnd Hin.
  destruct (df_getitem_label_unique df "Close" Hwf Hnd Hin)
    as (y & Hsel & Hcols & _ & Hidx & Hval).
  exists y. split; [|split; [exact Hcols|split; [|split; [|split]]]].
  - now apply plot_chart_run.
  - unfold df_index. now rewrite length_map.
  - transitivity (length (df_index y)).
    + unfold df_index. now rewrite length_map.
    + rewrite Hidx. unfold df_index. now rewrite length_map.
  - exact Hidx.
  - exact Hval.
Qed.

(** On a table without a close column the function raises [KeyError] for
    'Close' once the figure is opened: nothing is drawn, nothing is
    displayed, the process is left as it was. *)
Theorem plot_missing_close (s : session) (data : loc) (df : frame)
    (ticker : string) :
  heap (sess_world s) !! data = Some df ->
  ~ In "Close" (df_columns df) ->
  plot_stock_price data ticker s
    = (Raised (KeyError "'Close'"),
       mkSession (sess_world s) (sess_page s ++ [plt_figure 10 5])).
Proof.
  intros Hdata Hnot.
  unfold plot_stock_price, ui_bind, run, emit, DataFrame_index,
    DataFrame_getitem_label, bind, deref, ret, lift. simpl.
  rewrite Hdata. simpl. rewrite Hdata. simpl.
  unfold df_getitem_label, positions.
  rewrite positions_from_absent by assumption. reflexivity.
Qed.

(** *** The script *)

#[local] Arguments fetch_stock_data : simpl never.
#[local] Arguments analyze_with_ollama : simpl never.
#[local] Arguments plot_stock_price : simpl never.

Ltac tidy := cbn [sess_world sess_page fst snd].

Ltac run_script :=
  unfold main_script, ui_bind, ui_ret, emit, with_spinner, run,
    DataFrame_empty, bind, deref, ret; simpl; cbn [sess_world sess_page].

(** Unless the button is pressed with a ticker that is not empty once
    upper-cased, a run only lays out the page (and, for the empty ticker,
    the warning): the process is left as it was, so neither the provider
    nor the chat service is contacted. *)
Theorem script_idle (typed : string) (chosen : period) (pressed : bool)
    (s : session) :
  pressed = false \/ str_upper typed = EmptyString ->
  script typed chosen pressed s
    = (Returned tt,
       mkSession (sess_world s)
         (sess_page s ++ page_head
          ++ (if pressed
              then [st_warning "Please enter a valid stock ticker."]
              else []))).
Proof.
  intros Hidle. run_script. unfold page_head.
  destruct pressed.
  - destruct Hidle as [Hf|Hempty]; [discriminate|]. rewrite Hempty. simpl.
    repeat rewrite <- app_assoc. reflexivity.
  - simpl. repeat rewrite <- app_assoc. reflexivity.
Qed.

(** When the button is pressed and the fetch raises, the exception leaves
    the script as it is: the spinner is taken down, nothing else is put on
    the page, nothing is sent to the chat service and nothing is cached. *)
Theorem script_fetch_error (typed : string) (chosen : period) (s : session)
    (e : py_exn) (w1 : world) :
  str_is_empty (str_upper typed) = false ->
  fetch (str_upper typed) (period_value chosen) (sess_world s)
    = (Raised e, w1) ->
  script typed chosen true s
    = (Raised e,
       mkSession w1
         (sess_page s ++ page_head
          ++ [st_spinner_enter "Fetching market data..."; st_spinner_exit]))
  /\ chat_log w1 = chat_log (sess_world s)
  /\ cache w1 = cache (sess_world s).
Proof.
  intros Hticker Hfetch. split; [|split].
  - run_script. rewrite Hticker. tidy. rewrite Hfetch. tidy. unfold page_head.
    repeat rewrite <- app_assoc. reflexivity.
  - pose proof (fetch_frame_run yf_Ticker yf_history (str_upper typed)
                  (period_value chosen) (sess_world s)) as (_ & _ & Hchat).
    now rewrite Hfetch in Hchat.
  - now destruct (fetch_raised_miss yf_Ticker yf_history _ _ _ _ _ Hfetch).
Qed.

(** When the fetch returns an empty table (an unknown ticker), the run
    shows "No data found for this ticker." and stops there: no chart, no
    request to the chat service. *)
Theorem script_no_data (typed : string) (chosen : period) (s : session)
    (r : loc) (w1 : world) (df : frame) :
  str_is_empty (str_upper typed) = false ->
  fetch (str_upper typed) (period_value chosen) (sess_world s)
    = (Returned r, w1) ->
  heap w1 !! r = Some df ->
  df_empty df = true ->
  script typed chosen true s
    = (Returned tt,
       mkSession w1
         (sess_page s ++ page_head
          ++ [st_spinner_enter "Fetching market data..."; st_spinner_exit;
              st_error "No data found for this ticker."]))
  /\ chat_log w1 = chat_log (sess_world s).
Proof.
  intros Hticker Hfetch Hr Hempty. split.
  - run_script. rewrite Hticker. tidy. rewrite Hfetch. tidy.
    rewrite Hr. tidy. rewrite Hempty. tidy. unfold page_head.
    repeat rewrite <- app_assoc. reflexivity.
  - pose proof (fetch_frame_run yf_Ticker yf_history (str_upper typed)
                  (period_value chosen) (sess_world s)) as (_ & _ & Hchat).
    now rewrite Hfetch in Hchat.
Qed.

(** A run that gets a non-empty price series: the chart first, then the
    analysis, whose outcome decides how the run ends. *)
Lemma script_data_run (typed : string) (chosen : period) (s : session)
    (r : loc) (w1 : world) (df : frame) :
  str_is_empty (str_upper typed) = false ->
  fetch (str_upper typed) (period_value chosen) (sess_world s)
    = (Returned r, w1) ->
  heap w1 !! r = Some df ->
  price_series df ->
  df_empty df = false ->
  exists y,
    (df_columns y = ["Close"] /\
     length (df_rows y) = length (df_rows df) /\
     df_index y = df_index df /\
     forall i, df_value y i "Close" = df_value df i "Close") /\
    script typed chosen true s =
      let page :=
        sess_page s ++ page_head
        ++ [st_spinner_enter "Fetching market data..."; st_spinner_exit;
            st_subheader " Price Trend"]
        ++ chart (df_index df) y (str_upper typed)
        ++ [st_subheader " NeuralTicker LLM Analysis";
            st_spinner_enter "Analyzing using local LLM...";
            st_spinner_exit] in
      match analyze r (str_upper typed) w1 with
      | (Returned v, w2) => (Returned tt, mkSession w2 (page ++ [st_write v]))
      | (Raised e, w2) => (Raised e, mkSession w2 page)
      end.
Proof.
  intros Hticker Hfetch Hr Hps Hne.
  destruct Hps as (Hwf & Hnd & Hin).
  assert (Hclose : In "Close" (df_columns df))
    by (apply Hin; unfold five_fields; simpl; auto).
  run_script. rewrite Hticker. tidy. rewrite Hfetch. tidy.
  rewrite Hr. tidy. rewrite Hne. tidy.
  destruct (df_getitem_label_unique df "Close" Hwf Hnd Hclose)
    as (y & Hsel & Hcols & _ & Hidx & Hval).
  assert (Hlen : length (df_rows y) = length (df_rows df)).
  { transitivity (length (df_index y)).
    - unfold df_index. now rewrite length_map.
    - rewrite Hidx. unfold df_index. now rewrite length_map. }
  exists y. split; [repeat split; assumption|].
  match goal with
  | |- context [plot_stock_price r ?t ?s0] =>
      rewrite (plot_chart_run s0 r df y t Hr Hsel)
  end. tidy.
  destruct (analyze r (str_upper typed) w1) as [[v|e] w2]; tidy;
    unfold page_head, chart; repeat rewrite <- app_assoc; reflexivity.
Qed.

(** With a non-empty price series fetched and an analysis that returns,
    the run shows the chart, one point per row of the series with its close
    value, and then writes what the analysis returned, as it is. *)
Theorem script_shows_chart_then_analysis (typed : string) (chosen : period)
    (s : session) (r : loc) (w1 w2 : world) (df : frame) (v : pyval) :
  str_is_empty (str_upper typed) = false ->
  fetch (str_upper typed) (period_value chosen) (sess_world s)
    = (Returned r, w1) ->
  heap w1 !! r = Some df ->
  price_series df ->
  df_empty df = false ->
  analyze r (str_upper typed) w1 = (Returned v, w2) ->
  exists y,
    df_columns y = ["Close"] /\
    length (df_rows y) = length (df_rows df) /\
    (forall i, df_value y i "Close" = df_value df i "Close") /\
    script typed chosen true s
      = (Returned tt,
         mkSession w2
           (sess_page s ++ page_head
            ++ [st_spinner_enter "Fetching market data..."; st_spinner_exit;
                st_subheader " Price Trend"]
            ++ chart (df_index df) y (str_upper typed)
            ++ [st_subheader " NeuralTicker LLM Analysis";
                st_spinner_enter "Analyzing using local LLM...";
                st_spinner_exit;
                st_write v])).
Proof.
  intros Hticker Hfetch Hr Hps Hne Han.
  destruct (script_data_run typed chosen s r w1 df Hticker Hfetch Hr Hps Hne)
    as (y & (Hcols & Hlen & _ & Hval) & Hrun).
  exists y. repeat split; try assumption.
  rewrite Hrun, Han. cbv zeta. repeat rewrite <- app_assoc. reflexivity.
Qed.

(** A chat service that fails with an exception deriving from Exception
    does not end the run: the chart is shown and the text "LLM Error: ..."
    is written in place of an analysis. *)
Theorem script_writes_chat_failure (typed : string) (chosen : period)
    (s : session) (r : loc) (w1 : world) (df recent : frame) (e : py_exn) :
  str_is_empty (str_upper typed) = false ->
  fetch (str_upper typed) (period_value chosen) (sess_world s)
    = (Returned r, w1) ->
  heap w1 !! r = Some df ->
  price_series df ->
  df_empty df = false ->
  df_getitem_list (df_tail 10 df) five_fields = Returned recent ->
  ollama_chat (chat_log w1)
    (ChatCall "NeuralTicker"
       [user_message (build_prompt (str_upper typed) (to_string recent))])
    = Raised e ->
  exn_is_Exception e = true ->
  exists y w2,
    script typed chosen true s
      = (Returned tt,
         mkSession w2
           (sess_page s ++ page_head
            ++ [st_spinner_enter "Fetching market data..."; st_spinner_exit;
                st_subheader " Price Trend"]
            ++ chart (df_index df) y (str_upper typed)
            ++ [st_subheader " NeuralTicker LLM Analysis";
                st_spinner_enter "Analyzing using local LLM...";
                st_spinner_exit;
                st_write (PyStr ("LLM Error: " +:+ exn_str e))])).
Proof.
  intros Hticker Hfetch Hr Hps Hne Hsel Hchat Hexc.
  destruct (script_data_run typed chosen s r w1 df Hticker Hfetch Hr Hps Hne)
    as (y & _ & Hrun).
  destruct (analyze_run to_string ollama_chat w1 r df recent
              (str_upper typed) Hr Hne Hsel) as [Hres _].
  rewrite Hchat, Hexc in Hres.
  destruct (analyze r (str_upper typed) w1) as [o w2]. simpl in Hres.
  subst o. exists y, w2.
  rewrite Hrun. cbv zeta. repeat rewrite <- app_assoc. reflexivity.
Qed.

(** After the fetch of a run nothing but the analysis touches the
    process. *)
Lemma script_world_pressed (typed : string) (chosen : period) (s : session) :
  str_is_empty (str_upper typed) = false ->
  extends
    (snd (fetch (str_upper typed) (period_value chosen) (sess_world s)))
    (sess_world (snd (script typed chosen true s))).
Proof.
  intros Hticker. run_script. rewrite Hticker. tidy.
  destruct (fetch _ _ _) as [[r|e] w1]; tidy; [|apply extends_refl].
  destruct (heap w1 !! r) as [df|]; tidy; [|apply extends_refl].
  destruct (df_empty df); tidy; [apply extends_refl|].
  match goal with
  | |- context [plot_stock_price r ?t ?s0] =>
      pose proof (plot_leaves_world r t s0) as Hplot;
      destruct (plot_stock_price r t s0) as [[u|e] s1]
  end; simpl in Hplot; tidy; [|rewrite Hplot; apply extends_refl].
  rewrite Hplot.
  pose proof (preserving_analyze to_string ollama_chat r (str_upper typed) w1)
    as Han.
  destruct (analyze r (str_upper typed) w1) as [[v|e] w2]; tidy; exact Han.
Qed.

(** What a run does to the process: nothing, or the one fetch for the
    upper-cased ticker and the chosen period, after which no existing frame
    and no cache entry changes, the provider is not asked again, and the
    chat log only grows. *)
Theorem script_world (typed : string) (chosen : period) (pressed : bool)
    (s : session) :
  sess_world (snd (script typed chosen pressed s)) = sess_world s \/
  extends
    (snd (fetch (str_upper typed) (period_value chosen) (sess_world s)))
    (sess_world (snd (script typed chosen pressed s))).
Proof.
  destruct pressed; [|left; reflexivity].
  destruct (str_is_empty (str_upper typed)) eqn:Hticker.
  - left. run_script. rewrite Hticker. reflexivity.
  - right. now apply script_world_pressed.
Qed.

(** Memoization across runs and spellings: once a run has fetched a table
    for a ticker and a period, a later run for a text with the same
    upper-case form and the same period does not ask the provider. *)
Theorem script_rerun_uses_cache (typed typed' : string) (chosen : period)
    (s : session) (r : loc) (w1 : world) :
  str_is_empty (str_upper typed) = false ->
  fetch (str_upper typed) (period_value chosen) (sess_world s)
    = (Returned r, w1) ->
  str_upper typed' = str_upper typed ->
  yf_log (sess_world (snd (script typed' chosen true
                             (snd (script typed chosen true s)))))
    = yf_log (sess_world (snd (script typed chosen true s))).
Proof.
  intros Hticker Hfetch Hsame.
  destruct (fetch_returned_cached yf_Ticker yf_history _ _ _ _ _ Hfetch)
    as (df & _ & Hentry).
  set (s1 := snd (script typed chosen true s)).
  assert (Hcached : cache (sess_world s1)
                      !! (str_upper typed, period_value chosen) = Some df).
  { pose proof (script_world_pressed typed chosen s Hticker) as Hext.
    rewrite Hfetch in Hext. destruct Hext as (_ & Hc & _).
    simpl in Hc. subst s1. now rewrite Hc. }
  assert (Hticker' : str_is_empty (str_upper typed') = false)
    by now rewrite Hsame.
  pose proof (script_world_pressed typed' chosen s1 Hticker') as Hext.
  rewrite Hsame, (fetch_hit yf_Ticker yf_history _ _ _ _ Hcached) in Hext.
  destruct Hext as (_ & _ & Hlog & _). exact Hlog.
Qed.
End PageProperties.

(** ** A failure and a reply that read the same *)

Section TwoServices.
Context {idx cell : Type}.
Variable to_string : DataFrame idx cell -> string.
Variables failing replying : list chat_call -> chat_call -> outcome pyval.

(** The result of analyze does not tell a failure of the chat service from
    a reply: a service that raises an exception deriving from Exception and
    a service that replies with the text "LLM Error: " followed by the text
    of that exception give the same result. *)
Theorem analyze_failure_reads_like_reply (w : @world idx cell) (data : loc)
    (df recent : DataFrame idx cell) (ticker : string) (e : py_exn)
    (response message : gmap string pyval) :
  heap w !! data = Some df ->
  df_empty df = false ->
  df_getitem_list (df_tail 10 df) five_fields = Returned recent ->
  failing (chat_log w)
    (ChatCall "NeuralTicker"
       [user_message (build_prompt ticker (to_string recent))])
    = Raised e ->
  exn_is_Exception e = true ->
  replying (chat_log w)
    (ChatCall "NeuralTicker"
       [user_message (build_prompt ticker (to_string recent))])
    = Returned (PyDict response) ->
  response !! "message" = Some (PyDict message) ->
  message !! "content" = Some (PyStr ("LLM Error: " +:+ exn_str e)) ->
  fst (analyze_with_ollama to_string failing data ticker w)
    = fst (analyze_with_ollama to_string replying data ticker w).
Proof.
  intros Hdata Hne Hsel Hfail Hexc Hreply Hm Hc.
  destruct (analyze_run to_string failing w data df recent ticker
              Hdata Hne Hsel) as [-> _].
  destruct (analyze_run to_string replying w data df recent ticker
              Hdata Hne Hsel) as [-> _].
  rewrite Hfail, Hexc, Hreply. simpl. rewrite Hm. simpl. now rewrite Hc.
Qed.
End TwoServices.

(** ** The claims at work on the sample data *)

Lemma quotes_price_series (n : nat) : price_series (Sample.quotes n).
Proof.
  split; [|split].
  - unfold df_wf, Sample.quotes. simpl. apply List.Forall_forall.
    intros r Hr. apply in_map_iff in Hr as (k & <- & _). reflexivity.
  - unfold Sample.quotes, Sample.quote_columns. simpl.
    repeat (constructor; [simpl; intuition discriminate|]). constructor.
  - intros f Hf. unfold five_fields in Hf. simpl in Hf |- *. intuition.
Qed.

(** Line 38 is outside the [try]: on a table without the volume column
    analyze raises [KeyError], whatever the chat service would answer. *)
Example analyze_missing_field_raises :
  fst (analyze_with_ollama Sample.render (Sample.chat_replies "Hold.")
         0 "AAPL" (Sample.holding Sample.no_volume))
    = Raised (KeyError "['Volume'] not in index").
Proof. vm_compute. reflexivity. Qed.

Lemma analyze_empty_series_witness :
  analyze_with_ollama Sample.render (Sample.chat_replies "Hold.")
      0 "ZZZZINVALID" (Sample.holding (Sample.quotes 0))
    = (Returned (PyStr "No data available for analysis."),
       Sample.holding (Sample.quotes 0)) /\
  chat_log (snd (analyze_with_ollama Sample.render
                   (Sample.chat_replies "Hold.")
                   0 "ZZZZINVALID" (Sample.holding (Sample.quotes 0))))
    = [].
Proof.
  apply (analyze_empty_series Sample.render (Sample.chat_replies "Hold.")
           (Sample.holding (Sample.quotes 0)) 0 (Sample.quotes 0)
           "ZZZZINVALID"); reflexivity.
Defined.

Lemma analyze_prompt_last_10_rows_witness :
  exists recent,
    chat_log (snd (analyze_with_ollama Sample.render
                     (Sample.chat_replies "Hold.")
                     0 "AAPL" (Sample.holding (Sample.quotes 22))))
      = [ChatCall "NeuralTicker"
           [user_message (build_prompt "AAPL" (Sample.render recent))]] /\
    length (df_rows recent) = 10 /\
    df_date recent 0 = Some "day 13" /\
    df_value recent 0 "Close" = Some 115%Z /\
    df_date recent 9 = Some "day 22" /\
    df_value recent 9 "Volume" = Some 22000%Z.
Proof.
  destruct (analyze_prompt_last_10_rows Sample.render
              (Sample.chat_replies "Hold.")
              (Sample.holding (Sample.quotes 22)) 0 (Sample.quotes 22) "AAPL"
              eq_refl (quotes_price_series 22) ltac:(simpl; lia))
    as (recent & Hlog & _ & _ & _ & _ & Hlen & Hrows).
  exists recent. split; [exact Hlog|]. split; [exact Hlen|].
  destruct (Hrows 0 ltac:(lia)) as [Hd0 Hv0].
  destruct (Hrows 9 ltac:(lia)) as [Hd9 Hv9].
  destruct (Hv0 "Close" ltac:(simpl; auto)) as [_ Hc].
  destruct (Hv9 "Volume" ltac:(simpl; auto 6)) as [_ Hvol].
  rewrite Hd0, Hc, Hd9, Hvol. repeat split; reflexivity.
Defined.

Lemma analyze_prompt_short_series_witness :
  exists recent,
    chat_log (snd (analyze_with_ollama Sample.render
                     (Sample.chat_replies "Hold.")
                     0 "AAPL" (Sample.holding (Sample.quotes 3))))
      = [ChatCall "NeuralTicker"
           [user_message (build_prompt "AAPL" (Sample.render recent))]] /\
    length (df_rows recent) = 3 /\
    df_index recent = ["day 1"; "day 2"; "day 3"] /\
    df_value recent 0 "Open" = Some 101%Z /\
    df_value recent 2 "Low" = Some 98%Z.
Proof.
  destruct (analyze_prompt_short_series Sample.render
              (Sample.chat_replies "Hold.")
              (Sample.holding (Sample.quotes 3)) 0 (Sample.quotes 3) "AAPL"
              eq_refl (quotes_price_series 3) ltac:(simpl; lia))
    as (recent & Hlog & _ & _ & _ & Hlen & Hidx & Hrows).
  exists recent. split; [exact Hlog|]. split; [exact Hlen|].
  split; [exact Hidx|].
  destruct (Hrows 0 ltac:(simpl; lia)) as [_ Hv0].
  destruct (Hrows 2 ltac:(simpl; lia)) as [_ Hv2].
  destruct (Hv0 "Open" ltac:(simpl; auto)) as [_ Ho].
  destruct (Hv2 "Low" ltac:(simpl; auto)) as [_ Hl].
  rewrite Ho, Hl. split; reflexivity.
Defined.

Lemma analyze_prompt_template_witness :
  exists recent prompt,
    chat_log (snd (analyze_with_ollama Sample.render
                     (Sample.chat_replies "Hold.")
                     0 "AAPL" (Sample.holding (Sample.quotes 3))))
      = [ChatCall "NeuralTicker" [user_message prompt]] /\
    prompt = prompt_opening +:+ "AAPL" +:+ prompt_data_heading
             +:+ Sample.render recent +:+ prompt_tasks /\
    occurs_in "Stock ticker: AAPL" prompt /\
    occurs_in "3. Provide a Buy / Sell / Hold recommendation" prompt /\
    occurs_in "Limit response to 200 words." prompt.
Proof.
  destruct (analyze_prompt_template Sample.render
              (Sample.chat_replies "Hold.")
              (Sample.holding (Sample.quotes 3)) 0 (Sample.quotes 3) "AAPL"
              eq_refl (quotes_price_series 3) eq_refl)
    as (recent & prompt & _ & Hlog & Heq & Ht & _ & _ & _ & H3 & _ & Hl).
  exists recent, prompt. repeat split; assumption.
Defined.

Lemma analyze_one_user_message_reply_verbatim_witness :
  fst (analyze_with_ollama Sample.render (Sample.chat_replies "Hold.")
         0 "AAPL" (Sample.holding (Sample.quotes 12)))
    = Returned (PyStr "Hold.").
Proof.
  destruct (analyze_one_user_message_reply_verbatim Sample.render
              (Sample.chat_replies "Hold.")
              (Sample.holding (Sample.quotes 12)) 0 (Sample.quotes 12) "AAPL"
              eq_refl (quotes_price_series 12) eq_refl)
    as (recent & _ & _ & Hreply).
  eapply Hreply; reflexivity.
Defined.

Lemma analyze_converts_Exception_witness :
  fst (analyze_with_ollama Sample.render Sample.chat_unreachable
         0 "AAPL" (Sample.holding (Sample.quotes 12)))
    = Returned (PyStr "LLM Error: Failed to connect to Ollama.").
Proof.
  destruct (analyze_converts_Exception Sample.render Sample.chat_unreachable
              (Sample.holding (Sample.quotes 12)) 0 (Sample.quotes 12) "AAPL"
              eq_refl (quotes_price_series 12) eq_refl)
    as (recent & _ & Hraise).
  apply (Hraise (PyExn "ConnectionError" true "Failed to connect to Ollama."));
    reflexivity.
Defined.

(** The model call is interrupted from the keyboard: [KeyboardInterrupt]
    does not derive from [Exception], the handler of line 64 does not take
    it, and it leaves analyze as an exception. *)
Lemma analyze_KeyboardInterrupt_escapes :
  heap (Sample.holding (Sample.quotes 12)) !! 0 = Some (Sample.quotes 12) /\
  price_series (Sample.quotes 12) /\
  df_empty (Sample.quotes 12) = false /\
  (forall log call, Sample.chat_interrupted log call = Raised KeyboardInterrupt) /\
  fst (analyze_with_ollama Sample.render Sample.chat_interrupted
         0 "AAPL" (Sample.holding (Sample.quotes 12)))
    = Raised KeyboardInterrupt /\
  ~ exists v, fst (analyze_with_ollama Sample.render Sample.chat_interrupted
                     0 "AAPL" (Sample.holding (Sample.quotes 12)))
              = Returned v.
Proof.
  assert (Hrun : fst (analyze_with_ollama Sample.render Sample.chat_interrupted
                        0 "AAPL" (Sample.holding (Sample.quotes 12)))
                 = Raised KeyboardInterrupt) by (vm_compute; reflexivity).
  split; [reflexivity|]. split; [apply quotes_price_series|].
  split; [reflexivity|]. split; [reflexivity|]. split; [exact Hrun|].
  intros [v Hv]. rewrite Hrun in Hv. discriminate.
Qed.

Lemma analyze_total_on_Exception_witness :
  fst (analyze_with_ollama Sample.render Sample.chat_without_message
         0 "AAPL" (Sample.holding (Sample.quotes 12)))
    = Returned (PyStr "LLM Error: 'message'").
Proof.
  destruct (analyze_total_on_Exception Sample.render
              Sample.chat_without_message
              (Sample.holding (Sample.quotes 12)) 0 (Sample.quotes 12) "AAPL"
              eq_refl (quotes_price_series 12) eq_refl)
    as (recent & _ & _ & _ & Hmissing).
  eapply Hmissing; reflexivity.
Defined.

(** The same on a short series: with the five fields present and the series
    not empty, analyze still raises when the model call is interrupted. *)
Lemma analyze_raises_on_interrupt :
  heap (Sample.holding (Sample.quotes 3)) !! 0 = Some (Sample.quotes 3) /\
  price_series (Sample.quotes 3) /\
  df_empty (Sample.quotes 3) = false /\
  fst (analyze_with_ollama Sample.render Sample.chat_interrupted
         0 "MSFT" (Sample.holding (Sample.quotes 3)))
    = Raised KeyboardInterrupt /\
  ~ exists v, fst (analyze_with_ollama Sample.render Sample.chat_interrupted
                     0 "MSFT" (Sample.holding (Sample.quotes 3)))
              = Returned v.
Proof.
  assert (Hrun : fst (analyze_with_ollama Sample.render Sample.chat_interrupted
                        0 "MSFT" (Sample.holding (Sample.quotes 3)))
                 = Raised KeyboardInterrupt) by (vm_compute; reflexivity).
  split; [reflexivity|]. split; [apply quotes_price_series|].
  split; [reflexivity|]. split; [exact Hrun|].
  intros [v Hv]. rewrite Hrun in Hv. discriminate.
Qed.

Lemma analyze_leaves_series_unchanged_witness :
  heap (snd (analyze_with_ollama Sample.render (Sample.chat_replies "Hold.")
               0 "AAPL" (Sample.holding (Sample.quotes 12)))) !! 0
    = Some (Sample.quotes 12) /\
  exists recent,
    chat_log (snd (analyze_with_ollama Sample.render
                     (Sample.chat_replies "Hold.")
                     0 "AAPL" (Sample.holding (Sample.quotes 12))))
      = [ChatCall "NeuralTicker"
           [user_message (build_prompt "AAPL" (Sample.render recent))]] /\
    df_index recent
      = ["day 3"; "day 4"; "day 5"; "day 6"; "day 7"; "day 8"; "day 9";
         "day 10"; "day 11"; "day 12"].
Proof.
  destruct (analyze_leaves_series_unchanged Sample.render
              (Sample.chat_replies "Hold.")
              (Sample.holding (Sample.quotes 12)) 0 (Sample.quotes 12) "AAPL"
              eq_refl)
    as (Hsame & _ & Hprompt).
  split; [exact Hsame|].
  destruct (Hprompt (quotes_price_series 12) eq_refl)
    as (recent & Hlog & Hidx & _).
  exists recent. split; [exact Hlog|]. rewrite Hidx. reflexivity.
Defined.

Lemma fetch_memoized_witness :
  exists r2 w3 df,
    fetch_stock_data Sample.provider_Ticker Sample.provider_history
        "AAPL" "1mo"
        (snd (fetch_stock_data Sample.provider_Ticker Sample.provider_history
                "MSFT" "5d"
                (snd (fetch_stock_data Sample.provider_Ticker
                        Sample.provider_history
                        "AAPL" "1mo" Sample.fresh_process))))
      = (Returned r2, w3) /\
    heap (snd (fetch_stock_data Sample.provider_Ticker Sample.provider_history
                 "AAPL" "1mo" Sample.fresh_process)) !! 0 = Some df /\
    heap w3 !! r2 = Some df /\
    yf_log w3
      = yf_log (snd (fetch_stock_data Sample.provider_Ticker
                       Sample.provider_history
                       "MSFT" "5d"
                       (snd (fetch_stock_data Sample.provider_Ticker
                               Sample.provider_history
                               "AAPL" "1mo" Sample.fresh_process)))).
Proof.
  apply (fetch_memoized Sample.render Sample.provider_Ticker
           Sample.provider_history (Sample.chat_replies "Hold.")
           "AAPL" "1mo" Sample.fresh_process).
  - reflexivity.
  - apply rtc_once. apply step_fetch.
Defined.

Lemma fetch_propagates_transport_errors_witness :
  fst (fetch_stock_data Sample.provider_Ticker Sample.provider_down
         "AAPL" "1mo" Sample.fresh_process)
    = Raised (PyExn "ConnectionError" true "Max retries exceeded").
Proof.
  destruct (fetch_propagates_transport_errors Sample.provider_Ticker
              Sample.provider_down "AAPL" "1mo" Sample.fresh_process
              (PyExn "ConnectionError" true "Max retries exceeded")) as [_ H].
  - right. exists (mkTicker "AAPL"). split; reflexivity.
  - apply H. reflexivity.
Defined.

(** ** More properties at work on the sample data *)

Lemma analyze_missing_field_witness :
  (exists msg,
     fst (analyze_with_ollama Sample.render (Sample.chat_replies "Hold.")
            0 "AAPL" (Sample.holding Sample.no_volume))
       = Raised (KeyError msg)) /\
  chat_log (snd (analyze_with_ollama Sample.render
                   (Sample.chat_replies "Hold.")
                   0 "AAPL" (Sample.holding Sample.no_volume)))
    = [].
Proof.
  apply (analyze_missing_field Sample.render (Sample.chat_replies "Hold.")
           (Sample.holding Sample.no_volume) 0 Sample.no_volume
           "AAPL" "Volume").
  - reflexivity.
  - reflexivity.
  - simpl. auto 6.
  - simpl. intuition discriminate.
Defined.

Lemma analyze_twice_two_requests_witness :
  exists recent,
    chat_log
      (snd (analyze_with_ollama Sample.render (Sample.chat_replies "Hold.")
              0 "AAPL"
              (snd (analyze_with_ollama Sample.render
                      (Sample.chat_replies "Hold.")
                      0 "AAPL" (Sample.holding (Sample.quotes 3))))))
      = [ChatCall "NeuralTicker"
           [user_message (build_prompt "AAPL" (Sample.render recent))];
         ChatCall "NeuralTicker"
           [user_message (build_prompt "AAPL" (Sample.render recent))]].
Proof.
  apply (analyze_twice_two_requests Sample.render
           (Sample.chat_replies "Hold.")
           (Sample.holding (Sample.quotes 3)) 0 (Sample.quotes 3) "AAPL").
  - reflexivity.
  - apply quotes_price_series.
  - reflexivity.
Defined.

Lemma analyze_failure_reads_like_reply_witness :
  fst (analyze_with_ollama Sample.render Sample.chat_unreachable
         0 "AAPL" (Sample.holding (Sample.quotes 3)))
    = fst (analyze_with_ollama Sample.render SamplePage.chat_replies_error
             0 "AAPL" (Sample.holding (Sample.quotes 3))).
Proof.
  destruct (recent_data_spec (Sample.quotes 3) (quotes_price_series 3))
    as (recent & Hsel & _).
  eapply (analyze_failure_reads_like_reply Sample.render
            Sample.chat_unreachable SamplePage.chat_replies_error
            (Sample.holding (Sample.quotes 3)) 0 (Sample.quotes 3) recent
            "AAPL"
            (PyExn "ConnectionError" true "Failed to connect to Ollama.")).
  - reflexivity.
  - reflexivity.
  - exact Hsel.
  - reflexivity.
  - reflexivity.
  - reflexivity.
  - reflexivity.
  - reflexivity.
Defined.

Lemma fetch_miss_returns_provider_table_witness :
  exists r w',
    fetch_stock_data Sample.provider_Ticker Sample.provider_history
        "AAPL" "1mo" Sample.fresh_process
      = (Returned r, w') /\
    heap Sample.fresh_process !! r = None /\
    heap w' !! r = Some (Sample.quotes 3) /\
    yf_log w' = [("AAPL", "1mo")] /\
    cache w' !! ("AAPL", "1mo") = Some (Sample.quotes 3) /\
    chat_log w' = [].
Proof.
  apply (fetch_miss_returns_provider_table Sample.provider_Ticker
           Sample.provider_history "AAPL" "1mo" Sample.fresh_process
           (mkTicker "AAPL") (Sample.quotes 3)); reflexivity.
Defined.

Lemma fetch_failure_not_cached_witness :
  exists r w'',
    fetch_stock_data Sample.provider_Ticker SamplePage.provider_flaky
        "AAPL" "1mo"
        (snd (fetch_stock_data Sample.provider_Ticker
                SamplePage.provider_flaky
                "AAPL" "1mo" Sample.fresh_process))
      = (Returned r, w'') /\
    heap w'' !! r = Some (Sample.quotes 5) /\
    yf_log w'' = [("AAPL", "1mo"); ("AAPL", "1mo")].
Proof.
  destruct (fetch_failure_not_cached Sample.provider_Ticker
              SamplePage.provider_flaky "AAPL" "1mo" Sample.fresh_process
              (snd (fetch_stock_data Sample.provider_Ticker
                      SamplePage.provider_flaky
                      "AAPL" "1mo" Sample.fresh_process))
              (PyExn "ConnectionError" true "Max retries exceeded")
              eq_refl) as [_ Hretry].
  apply (Hretry (mkTicker "AAPL") (Sample.quotes 5)); reflexivity.
Defined.

Lemma fetch_frame_witness :
  cache (snd (fetch_stock_data Sample.provider_Ticker Sample.provider_history
                "AAPL" "1mo" (Sample.holding (Sample.quotes 3))))
    !! ("AAPL", "5d") = None /\
  heap (snd (fetch_stock_data Sample.provider_Ticker Sample.provider_history
               "AAPL" "1mo" (Sample.holding (Sample.quotes 3))))
    !! 0 = Some (Sample.quotes 3).
Proof.
  destruct (fetch_frame Sample.provider_Ticker Sample.provider_history
              "AAPL" "1mo" (Sample.holding (Sample.quotes 3)))
    as (Hkeys & Hheap & _).
  split.
  - rewrite (Hkeys ("AAPL", "5d")); [reflexivity|discriminate].
  - apply Hheap. reflexivity.
Defined.

Lemma plot_draws_close_by_date_witness :
  exists y,
    plot_stock_price 0 "AAPL"
        (SamplePage.opening (Sample.holding (Sample.quotes 22)))
      = (Returned tt,
         mkSession (Sample.holding (Sample.quotes 22))
                   (chart (df_index (Sample.quotes 22)) y "AAPL")) /\
    length (df_rows y) = 22 /\
    df_value y 21 "Close" = Some 124%Z.
Proof.
  destruct (plot_draws_close_by_date
              (SamplePage.opening (Sample.holding (Sample.quotes 22)))
              0 (Sample.quotes 22) "AAPL" eq_refl)
    as (y & Hrun & _ & _ & Hlen & _ & Hval).
  - apply quotes_price_series.
  - apply quotes_price_series.
  - simpl. auto 6.
  - exists y. split; [exact Hrun|]. split; [exact Hlen|].
    rewrite Hval. reflexivity.
Defined.

Lemma plot_missing_close_witness :
  plot_stock_price 0 "AAPL"
      (SamplePage.opening (Sample.holding SamplePage.no_close))
    = (Raised (KeyError "'Close'"),
       mkSession (Sample.holding SamplePage.no_close) [plt_figure 10 5]).
Proof.
  apply (plot_missing_close
           (SamplePage.opening (Sample.holding SamplePage.no_close))
           0 SamplePage.no_close "AAPL").
  - reflexivity.
  - simpl. intuition discriminate.
Defined.

Lemma script_idle_witness :
  main_script Sample.render Sample.provider_Ticker Sample.provider_history
      (Sample.chat_replies "Hold.") SamplePage.upper
      EmptyString P1mo true (SamplePage.opening Sample.fresh_process)
    = (Returned tt,
       mkSession Sample.fresh_process
         (page_head ++ [st_warning "Please enter a valid stock ticker."])).
Proof.
  apply (script_idle Sample.render Sample.provider_Ticker
           Sample.provider_history (Sample.chat_replies "Hold.")
           SamplePage.upper EmptyString P1mo true
           (SamplePage.opening Sample.fresh_process)).
  right. reflexivity.
Defined.

Lemma script_fetch_error_witness :
  main_script Sample.render Sample.provider_Ticker Sample.provider_down
      (Sample.chat_replies "Hold.") SamplePage.upper
      "aapl" P1mo true (SamplePage.opening Sample.fresh_process)
    = (Raised (PyExn "ConnectionError" true "Max retries exceeded"),
       mkSession
         (snd (fetch_stock_data Sample.provider_Ticker Sample.provider_down
                 "AAPL" "1mo" Sample.fresh_process))
         (page_head
          ++ [st_spinner_enter "Fetching market data..."; st_spinner_exit])).
Proof.
  apply (script_fetch_error Sample.render Sample.provider_Ticker
           Sample.provider_down (Sample.chat_replies "Hold.")
           SamplePage.upper "aapl" P1mo
           (SamplePage.opening Sample.fresh_process)); reflexivity.
Defined.

Lemma script_no_data_witness :
  main_script Sample.render Sample.provider_Ticker SamplePage.provider_unknown
      (Sample.chat_replies "Hold.") SamplePage.upper
      "zzzzinvalid" P5d true (SamplePage.opening Sample.fresh_process)
    = (Returned tt,
       mkSession
         (snd (fetch_stock_data Sample.provider_Ticker
                 SamplePage.provider_unknown
                 "ZZZZINVALID" "5d" Sample.fresh_process))
         (page_head
          ++ [st_spinner_enter "Fetching market data..."; st_spinner_exit;
              st_error "No data found for this ticker."])).
Proof.
  apply (script_no_data Sample.render Sample.provider_Ticker
           SamplePage.provider_unknown (Sample.chat_replies "Hold.")
           SamplePage.upper "zzzzinvalid" P5d
           (SamplePage.opening Sample.fresh_process) 0
           (snd (fetch_stock_data Sample.provider_Ticker
                   SamplePage.provider_unknown
                   "ZZZZINVALID" "5d" Sample.fresh_process))
           (Sample.quotes 0)); reflexivity.
Defined.

Lemma script_shows_chart_then_analysis_witness :
  exists y,
    length (df_rows y) = 3 /\
    main_script Sample.render Sample.provider_Ticker Sample.provider_history
        (Sample.chat_replies "Hold.") SamplePage.upper
        "aapl" P1mo true (SamplePage.opening Sample.fresh_process)
      = (Returned tt,
         mkSession
           (snd (analyze_with_ollama Sample.render
                   (Sample.chat_replies "Hold.") 0 "AAPL"
                   (snd (fetch_stock_data Sample.provider_Ticker
                           Sample.provider_history
                           "AAPL" "1mo" Sample.fresh_process))))
           (page_head
            ++ [st_spinner_enter "Fetching market data..."; st_spinner_exit;
                st_subheader " Price Trend"]
            ++ chart (df_index (Sample.quotes 3)) y "AAPL"
            ++ [st_subheader " NeuralTicker LLM Analysis";
                st_spinner_enter "Analyzing using local LLM...";
                st_spinner_exit;
                st_write (PyStr "Hold.")])).
Proof.
  destruct (script_shows_chart_then_analysis Sample.render
              Sample.provider_Ticker Sample.provider_history
              (Sample.chat_replies "Hold.") SamplePage.upper
              "aapl" P1mo (SamplePage.opening Sample.fresh_process) 0
              (snd (fetch_stock_data Sample.provider_Ticker
                      Sample.provider_history
                      "AAPL" "1mo" Sample.fresh_process))
              (snd (analyze_with_ollama Sample.render
                      (Sample.chat_replies "Hold.") 0 "AAPL"
                      (snd (fetch_stock_data Sample.provider_Ticker
                              Sample.provider_history
                              "AAPL" "1mo" Sample.fresh_process))))
              (Sample.quotes 3) (PyStr "Hold.")
              eq_refl eq_refl eq_refl (quotes_price_series 3) eq_refl eq_refl)
    as (y & _ & Hlen & _ & Hrun).
  exists y. split; [exact Hlen|exact Hrun].
Defined.

Lemma script_writes_chat_failure_witness :
  exists y w2,
    main_script Sample.render Sample.provider_Ticker Sample.provider_history
        Sample.chat_unreachable SamplePage.upper
        "aapl" P1mo true (SamplePage.opening Sample.fresh_process)
      = (Returned tt,
         mkSession w2
           (page_head
            ++ [st_spinner_enter "Fetching market data..."; st_spinner_exit;
                st_subheader " Price Trend"]
            ++ chart (df_index (Sample.quotes 3)) y "AAPL"
            ++ [st_subheader " NeuralTicker LLM Analysis";
                st_spinner_enter "Analyzing using local LLM...";
                st_spinner_exit;
                st_write
                  (PyStr "LLM Error: Failed to connect to Ollama.")])).
Proof.
  destruct (recent_data_spec (Sample.quotes 3) (quotes_price_series 3))
    as (recent & Hsel & _).
  apply (script_writes_chat_failure Sample.render Sample.provider_Ticker
           Sample.provider_history Sample.chat_unreachable SamplePage.upper
           "aapl" P1mo (SamplePage.opening Sample.fresh_process) 0
           (snd (fetch_stock_data Sample.provider_Ticker
                   Sample.provider_history
                   "AAPL" "1mo" Sample.fresh_process))
           (Sample.quotes 3) recent
           (PyExn "ConnectionError" true "Failed to connect to Ollama.")
           eq_refl eq_refl eq_refl (quotes_price_series 3) eq_refl Hsel
           eq_refl eq_refl).
Defined.

Lemma script_rerun_uses_cache_witness :
  yf_log
    (sess_world
       (snd (main_script Sample.render Sample.provider_Ticker
               Sample.provider_history (Sample.chat_replies "Hold.")
               SamplePage.upper "AAPL" P1mo true
               (snd (main_script Sample.render Sample.provider_Ticker
                       Sample.provider_history (Sample.chat_replies "Hold.")
                       SamplePage.upper "aapl" P1mo true
                       (SamplePage.opening Sample.fresh_process))))))
    = yf_log
        (sess_world
           (snd (main_script Sample.render Sample.provider_Ticker
                   Sample.provider_history (Sample.chat_replies "Hold.")
                   SamplePage.upper "aapl" P1mo true
                   (SamplePage.opening Sample.fresh_process)))).
Proof.
  apply (script_rerun_uses_cache Sample.render Sample.provider_Ticker
           Sample.provider_history (Sample.chat_replies "Hold.")
           SamplePage.upper "aapl" "AAPL" P1mo
           (SamplePage.opening Sample.fresh_process) 0
           (snd (fetch_stock_data Sample.provider_Ticker
                   Sample.provider_history
                   "AAPL" "1mo" Sample.fresh_process)));
    reflexivity.
Defined.
